(** * Sentinel-2 crop stress API (app.py): NDVI pipeline and its endpoints

    A shallow embedding of [src/app.py].  Python values are a small
    inductive type, Python floats are the kernel's binary64 floats read
    through their exact rational value, dictionaries are [gmap]s, and the
    remote collaborators (Earth Engine, HTTP download, Pillow) are fields
    of an environment record.  The code runs in a monad that threads the
    list of remote calls made so far and may raise a Python exception. *)

Set Warnings "-inexact-float,-register-all".
From Stdlib Require Import ZArith QArith Floats Lia Lqa.
From stdpp Require Import gmap strings list pretty.

Local Open Scope Z_scope.

(** ** Python values *)

Inductive pyval :=
| PyNone
| PyBool (b : bool)
| PyInt (z : Z)
| PyFloat (f : float)
| PyStr (s : string)
| PyList (l : list pyval).

Definition type_name (v : pyval) : string :=
  match v with
  | PyNone => "NoneType"
  | PyBool _ => "bool"
  | PyInt _ => "int"
  | PyFloat _ => "float"
  | PyStr _ => "str"
  | PyList _ => "list"
  end.

(** The value a Python number stands for.  Comparisons between [int] and
    [float] operands are exact in Python, so they are comparisons of these
    values; a NaN compares false with everything. *)
Inductive number :=
| NaN
| NegInf
| PosInf
| Fin (q : Q).

Definition float_value (f : float) : number :=
  match Prim2SF f with
  | S754_nan => NaN
  | S754_infinity true => NegInf
  | S754_infinity false => PosInf
  | S754_zero _ => Fin 0
  | S754_finite s m e =>
      let n := if s then Z.neg m else Z.pos m in
      Fin (match e with
           | Z0 => n # 1
           | Z.pos p => (n * 2 ^ Z.pos p) # 1
           | Z.neg p => n # (2 ^ p)
           end)
  end.

Definition int_value (z : Z) : number := Fin (inject_Z z).

Definition Qlt_bool (x y : Q) : bool := negb (Qle_bool y x).

Definition num_lt (a b : number) : bool :=
  match a, b with
  | NaN, _ | _, NaN => false
  | _, NegInf => false
  | NegInf, _ => true
  | PosInf, _ => false
  | Fin _, PosInf => true
  | Fin x, Fin y => Qlt_bool x y
  end.

Definition num_le (a b : number) : bool :=
  match a, b with
  | NaN, _ | _, NaN => false
  | NegInf, _ => true
  | _, NegInf => false
  | _, PosInf => true
  | PosInf, _ => false
  | Fin x, Fin y => Qle_bool x y
  end.

Definition py_number (v : pyval) : option number :=
  match v with
  | PyBool b => Some (int_value (Z.b2z b))
  | PyInt z => Some (int_value z)
  | PyFloat f => Some (float_value f)
  | _ => None
  end.

(** ** Exceptions and results *)

Inductive exn :=
| HTTPException (status_code : Z) (detail : string)
| Exception (cls : string) (msg : string).

Inductive result (A : Type) :=
| Ok (a : A)
| Raise (e : exn).
Arguments Ok {A} a.
Arguments Raise {A} e.

Definition rbind {A B} (r : result A) (k : A -> result B) : result B :=
  match r with
  | Ok a => k a
  | Raise e => Raise e
  end.

(** [v < t] for a float literal [t]: defined on numbers, a [TypeError]
    on every other operand. *)
Definition py_lt_float (v : pyval) (t : float) : result bool :=
  match py_number v with
  | Some n => Ok (num_lt n (float_value t))
  | None =>
      Raise (Exception "TypeError"
        ("'<' not supported between instances of '" +:+ type_name v +:+ "' and 'float'"))
  end.

(** ** Health classification (get_ndvi_stats, the if/elif chain) *)

Definition classify (mean_ndvi : pyval) : result string :=
  let health_status := "Unknown" in
  rbind (py_lt_float mean_ndvi 0.2%float) (fun c1 =>
  if c1 then Ok "Severe Stress / Bare Soil" else
  rbind (py_lt_float mean_ndvi 0.4%float) (fun c2 =>
  if c2 then Ok "Stressed Vegetation" else
  rbind (py_lt_float mean_ndvi 0.6%float) (fun c3 =>
  if c3 then Ok "Moderate Health" else
  rbind (py_lt_float mean_ndvi 0.8%float) (fun c4 =>
  if c4 then Ok "Healthy" else
  Ok "Very Healthy")))).

(** ** The request model (LocationRequest) *)

Record LocationRequest := {
  latitude : float;
  longitude : float;
  buffer_distance : option Z;
  days_back : option Z;
  cloud_threshold : option Z;
  image_width : option Z;
  image_height : option Z
}.

(** A request that gives only the coordinates; pydantic fills the rest. *)
Definition default_request (lat lon : float) : LocationRequest :=
  {| latitude := lat; longitude := lon;
     buffer_distance := Some 50; days_back := Some 90; cloud_threshold := Some 20;
     image_width := Some 800; image_height := Some 600 |}.

Definition py_optint (o : option Z) : pyval :=
  match o with
  | Some z => PyInt z
  | None => PyNone
  end.

(** ** Earth Engine computed objects

    The client library builds these expression trees locally; nothing is
    sent to the server until [getInfo] or [getThumbURL] is called.  The
    arguments are kept as the request gave them (an absent integer is
    [None]); what the library makes of them is left to the provider. *)

Inductive ee_geometry :=
| Point (coords : list float)
| Buffer (g : ee_geometry) (distance : option Z)
| Bounds (g : ee_geometry).

Inductive ee_filter :=
| Filter_lt (name : string) (value : option Z).

Inductive ee_collection :=
| ImageCollection (id : string)
| FilterBounds (c : ee_collection) (g : ee_geometry)
| FilterDate (c : ee_collection) (start end_ : string)
| Filter (c : ee_collection) (f : ee_filter).

Inductive ee_image :=
| Median (c : ee_collection)
| Clip (i : ee_image) (g : ee_geometry)
| NormalizedDifference (i : ee_image) (bandNames : list string)
| Rename (i : ee_image) (name : string).

Inductive ee_reducer :=
| Reducer_mean
| Reducer_minMax
| Reducer_stdDev
| Reducer_combine (r1 r2 : ee_reducer) (sharedInputs : bool).

(** The calls into the client libraries that reach out of the process.
    An entry of the log records that the call was made ([getInfo],
    [getThumbURL], [requests.get]); a call that the library gives up
    before anything is sent is a call that raises. *)
Inductive remote_call :=
| CollectionSize (c : ee_collection)
| BandNames (i : ee_image)
| ReduceRegion (i : ee_image) (reducer : ee_reducer) (geometry : ee_geometry)
    (scale : Z) (maxPixels : float)
| GetThumbURL (i : ee_image) (vis_params : gmap string pyval)
| HttpGet (url : string) (timeout : Z).

(** ** requests, PIL and io objects *)

Definition bytes := list Byte.byte.

Record http_response := {
  http_status : Z;
  http_reason : string;
  http_url : string;
  content : bytes
}.

Record image := {
  mode : string;
  size : Z * Z;
  raster : list Z
}.

Inductive resampling := NEAREST | BILINEAR | BICUBIC | LANCZOS.

Record BytesIO := {
  buffer : bytes;
  position : Z
}.

(** The image endpoint's StreamingResponse. *)
Record StreamingResponse := {
  body : BytesIO;
  media_type : string;
  headers : list (string * string)
}.

(** The stats endpoint's NDVIResponse. *)
Record NDVIResponse := {
  status : string;
  message : string;
  location : gmap string pyval;
  ndvi_stats : gmap string pyval
}.

(** ** The environment: system clock, imagery provider, network, Pillow,
    and the string conversions of the Python runtime *)

Record environment := {
  today : Z;
  isoformat : Z -> string;
  size_getInfo : ee_collection -> result Z;
  bandNames_getInfo : ee_image -> result (list string);
  reduceRegion_getInfo :
    ee_image -> ee_reducer -> ee_geometry -> Z -> float -> result (gmap string pyval);
  getThumbURL : ee_image -> gmap string pyval -> result string;
  requests_get : string -> Z -> result http_response;
  Image_open : bytes -> result image;
  Image_convert : image -> string -> result image;
  Image_resize : image -> option Z * option Z -> resampling -> result image;
  Image_save : image -> string -> Z -> result bytes;
  str_exn : exn -> string;
  str_float : float -> string;
  str_dict : gmap string pyval -> string
}.

(** ** The monad of the handlers: remote-call log and exceptions *)

Definition M (A : Type) : Type := list remote_call -> result A * list remote_call.

Definition ret {A} (a : A) : M A := fun t => (Ok a, t).

Definition raise {A} (e : exn) : M A := fun t => (Raise e, t).

Definition bind {A B} (m : M A) (k : A -> M B) : M B :=
  fun t =>
    match m t with
    | (Ok a, t') => k a t'
    | (Raise e, t') => (Raise e, t')
    end.

Definition lift {A} (r : result A) : M A := fun t => (r, t).

(** A remote call is logged, then answers or raises. *)
Definition call {A} (c : remote_call) (answer : result A) : M A :=
  fun t => (answer, t ++ [c]).

(** [try: body / except Exception as e: handler e] *)
Definition try_except {A} (body : M A) (handler : exn -> M A) : M A :=
  fun t =>
    match body t with
    | (Ok a, t') => (Ok a, t')
    | (Raise e, t') => handler e t'
    end.

Notation "x <- c ;; k" := (bind c (fun x => k))
  (at level 100, c at next level, right associativity).
Notation "c ;;; k" := (bind c (fun _ => k))
  (at level 100, right associativity).

Definition when_raise (c : bool) (e : exn) : M unit :=
  if c then raise e else ret tt.

(** ** datetime *)

(** [datetime.timedelta(days=d)], as a number of days. *)
Definition timedelta (days : option Z) : result Z :=
  match days with
  | None =>
      Raise (Exception "TypeError"
        "unsupported type for timedelta days component: NoneType")
  | Some d =>
      if Z.abs d <=? 999999999 then Ok d
      else Raise (Exception "OverflowError"
             ("days=" +:+ pretty d +:+ "; must have magnitude <= 999999999"))
  end.

(** [date - timedelta] on proleptic Gregorian ordinals; [date.min] is day 1
    and [date.max] is day 3652059. *)
Definition date_sub (d delta : Z) : result Z :=
  let o := d - delta in
  if (1 <=? o) && (o <=? 3652059) then Ok o
  else Raise (Exception "OverflowError" "date value out of range").

(** ** requests and io *)

Definition raise_for_status (r : http_response) : result unit :=
  let s := http_status r in
  if (400 <=? s) && (s <? 500) then
    Raise (Exception "HTTPError"
      (pretty s +:+ " Client Error: " +:+ http_reason r +:+ " for url: " +:+ http_url r))
  else if (500 <=? s) && (s <? 600) then
    Raise (Exception "HTTPError"
      (pretty s +:+ " Server Error: " +:+ http_reason r +:+ " for url: " +:+ http_url r))
  else Ok tt.

Definition BytesIO_new : BytesIO := {| buffer := []; position := 0 |}.

Definition BytesIO_write (o : BytesIO) (data : bytes) : BytesIO :=
  {| buffer := (take (Z.to_nat (position o)) (buffer o) ++ data
                ++ drop (Z.to_nat (position o) + length data)%nat (buffer o));
     position := position o + Z.of_nat (length data) |}.

Definition BytesIO_seek (o : BytesIO) (pos : Z) : BytesIO :=
  {| buffer := buffer o; position := pos |}.

(** [img.size == (width, height)] *)
Definition size_eq (s : Z * Z) (target : option Z * option Z) : bool :=
  bool_decide ((Some s.1, Some s.2) = target).

(** ** The pipeline *)

Definition vis_params : gmap string pyval :=
  {[ "min" := PyFloat 0.0%float;
     "max" := PyFloat 1.0%float;
     "palette" := PyList [PyStr "red"; PyStr "orange"; PyStr "yellow";
                          PyStr "green"; PyStr "darkgreen"];
     "dimensions" := PyStr "800x600";
     "format" := PyStr "png" ]}.

Definition stats_reducer : ee_reducer :=
  Reducer_combine Reducer_mean
    (Reducer_combine Reducer_minMax Reducer_stdDev true) true.

Section Pipeline.

Variable E : environment.

Definition area_of_interest (lat lon : float) (buffer_distance : option Z) : ee_geometry :=
  let point := Point [lon; lat] in
  Bounds (Buffer point buffer_distance).

Definition s2_filtered (aoi : ee_geometry) (start end_ : Z) (cloud_threshold : option Z)
  : ee_collection :=
  Filter
    (FilterDate
       (FilterBounds (ImageCollection "COPERNICUS/S2_HARMONIZED") aoi)
       (isoformat E start) (isoformat E end_))
    (Filter_lt "CLOUDY_PIXEL_PERCENTAGE" cloud_threshold).

Definition get_ndvi_image_url (lat lon : float)
    (buffer_distance days_back cloud_threshold : option Z)
  : M (string * gmap string pyval) :=
  try_except
    (let aoi := area_of_interest lat lon buffer_distance in
     let end_ := today E in
     delta <- lift (timedelta days_back) ;;
     start <- lift (date_sub end_ delta) ;;
     let s2_collection := s2_filtered aoi start end_ cloud_threshold in
     n <- call (CollectionSize s2_collection) (size_getInfo E s2_collection) ;;
     when_raise (n =? 0)
       (HTTPException 404
          "No suitable Sentinel-2 images found for the specified criteria") ;;;
     let s2 := Clip (Median s2_collection) aoi in
     band_names <- call (BandNames s2) (bandNames_getInfo E s2) ;;
     when_raise (negb (bool_decide ("B8" ∈ band_names))
                 || negb (bool_decide ("B4" ∈ band_names)))
       (HTTPException 400 "Required bands (B4 and B8) not found in the image") ;;;
     let ndvi := Rename (NormalizedDifference s2 ["B8"; "B4"]) "NDVI" in
     ndvi_stats <- call (ReduceRegion ndvi stats_reducer aoi 10 1e9%float)
                     (reduceRegion_getInfo E ndvi stats_reducer aoi 10 1e9%float) ;;
     image_url <- call (GetThumbURL ndvi vis_params) (getThumbURL E ndvi vis_params) ;;
     ret (image_url, ndvi_stats))
    (fun e => raise (HTTPException 500 ("Error processing NDVI: " +:+ str_exn E e))).

Definition download_and_convert_image (image_url : string) (width height : option Z)
  : M BytesIO :=
  try_except
    (response <- call (HttpGet image_url 30) (requests_get E image_url 30) ;;
     lift (raise_for_status response) ;;;
     img <- lift (Image_open E (content response)) ;;
     img <- (if negb (String.eqb (mode img) "RGB")
             then lift (Image_convert E img "RGB") else ret img) ;;
     img <- (if negb (size_eq (size img) (width, height))
             then lift (Image_resize E img (width, height) LANCZOS) else ret img) ;;
     let output := BytesIO_new in
     data <- lift (Image_save E img "JPEG" 95) ;;
     let output := BytesIO_write output data in
     let output := BytesIO_seek output 0 in
     ret output)
    (fun e => raise (HTTPException 500 ("Error processing image: " +:+ str_exn E e))).

(** [lo <= x <= hi] with integer bounds and a float in the middle. *)
Definition between (lo : Z) (x : float) (hi : Z) : bool :=
  num_le (int_value lo) (float_value x) && num_le (float_value x) (int_value hi).

(** [except HTTPException: raise / except Exception as e: raise 500] *)
Definition endpoint_guard {A} (body : M A) : M A :=
  try_except body
    (fun e =>
       match e with
       | HTTPException _ _ => raise e
       | Exception _ _ =>
           raise (HTTPException 500 ("Internal server error: " +:+ str_exn E e))
       end).

(** The two range checks that open both endpoints. *)
Definition validate_coordinates (request : LocationRequest) : M unit :=
  when_raise (negb (between (-90) (latitude request) 90))
    (HTTPException 400 "Invalid latitude. Must be between -90 and 90") ;;;
  when_raise (negb (between (-180) (longitude request) 180))
    (HTTPException 400 "Invalid longitude. Must be between -180 and 180").

Definition generate_ndvi_image (request : LocationRequest) : M StreamingResponse :=
  endpoint_guard
    (validate_coordinates request ;;;
     r <- get_ndvi_image_url (latitude request) (longitude request)
            (buffer_distance request) (days_back request) (cloud_threshold request) ;;
     let image_url := r.1 in
     let ndvi_stats := r.2 in
     jpeg_image <- download_and_convert_image image_url
                     (image_width request) (image_height request) ;;
     ret {| body := jpeg_image;
            media_type := "image/jpeg";
            headers :=
              [("Content-Disposition",
                "inline; filename=ndvi_" +:+ str_float E (latitude request) +:+ "_"
                  +:+ str_float E (longitude request) +:+ ".jpg");
               ("X-NDVI-Stats", str_dict E ndvi_stats)] |}).

(** The [NDVIResponse(...)] expression that ends get_ndvi_stats. *)
Definition stats_response (request : LocationRequest) (ndvi_stats : gmap string pyval)
    (mean_ndvi : pyval) (health_status : string) : NDVIResponse :=
  {| status := "success";
     message := "NDVI analysis completed successfully";
     location :=
       {[ "latitude" := PyFloat (latitude request);
          "longitude" := PyFloat (longitude request);
          "buffer_distance_m" := py_optint (buffer_distance request) ]};
     ndvi_stats :=
       {[ "mean_ndvi" := mean_ndvi;
          "min_ndvi" := default (PyInt 0) (ndvi_stats !! "NDVI_min");
          "max_ndvi" := default (PyInt 0) (ndvi_stats !! "NDVI_max");
          "std_ndvi" := default (PyInt 0) (ndvi_stats !! "NDVI_stdDev");
          "health_status" := PyStr health_status;
          "analysis_period_days" := py_optint (days_back request) ]} |}.

Definition get_ndvi_stats (request : LocationRequest) : M NDVIResponse :=
  endpoint_guard
    (validate_coordinates request ;;;
     r <- get_ndvi_image_url (latitude request) (longitude request)
            (buffer_distance request) (days_back request) (cloud_threshold request) ;;
     let ndvi_stats := r.2 in
     let mean_ndvi := default (PyInt 0) (ndvi_stats !! "NDVI_mean") in
     health_status <- lift (classify mean_ndvi) ;;
     ret (stats_response request ndvi_stats mean_ndvi health_status)).

End Pipeline.

(** ** A test double for the collaborators

    A provider with [scenes] matching scenes, a composite exposing [bands]
    and zonal statistics [stats]; the thumbnail is a 800x600 palette image.
    Pillow refuses a target size that is not two positive integers. *)

Definition fake_resize (i : image) (target : option Z * option Z) : result image :=
  match target with
  | (Some w, Some h) =>
      if (1 <=? w) && (1 <=? h)
      then Ok {| mode := mode i; size := (w, h); raster := raster i |}
      else Raise (Exception "ValueError" "height and width must be > 0")
  | _ => Raise (Exception "TypeError" "an integer is required")
  end.

Definition fake_env (scenes : Z) (bands : list string) (stats : gmap string pyval)
  : environment :=
  {| today := 739192;
     isoformat := fun d => "ordinal:" +:+ pretty d;
     size_getInfo := fun _ => Ok scenes;
     bandNames_getInfo := fun _ => Ok bands;
     reduceRegion_getInfo := fun _ _ _ _ _ => Ok stats;
     getThumbURL := fun _ _ => Ok "https://earthengine.googleapis.com/thumb";
     requests_get := fun url _ =>
       Ok {| http_status := 200; http_reason := "OK"; http_url := url; content := [] |};
     Image_open := fun _ => Ok {| mode := "P"; size := (800, 600); raster := [] |};
     Image_convert := fun i m => Ok {| mode := m; size := size i; raster := raster i |};
     Image_resize := fun i target _ => fake_resize i target;
     Image_save := fun _ _ _ => Ok [];
     str_exn := fun e =>
       match e with
       | HTTPException s d => pretty s +:+ ": " +:+ d
       | Exception _ m => m
       end;
     str_float := fun _ => "";
     str_dict := fun _ => "" |}.

Definition s2_bands : list string :=
  ["B1"; "B2"; "B3"; "B4"; "B5"; "B6"; "B7"; "B8"; "B8A"; "B9"; "B11"; "B12"].

Definition full_stats : gmap string pyval :=
  {[ "NDVI_mean" := PyFloat 0.5%float;
     "NDVI_min" := PyFloat 0.25%float;
     "NDVI_max" := PyFloat 0.75%float;
     "NDVI_stdDev" := PyFloat 0.125%float ]}.

(** ** Names for what the properties talk about *)

(** The rational a float literal denotes. *)
Definition threshold (t : float) : Q :=
  match float_value t with
  | Fin q => q
  | _ => 0%Q
  end.

(** The five labels of the classification. *)
Definition health_labels : list string :=
  ["Severe Stress / Bare Soil"; "Stressed Vegetation"; "Moderate Health";
   "Healthy"; "Very Healthy"].

(** The real interval [lo, hi]: a NaN or an infinity is not in it. *)
Definition in_range (lo : Z) (x : float) (hi : Z) : Prop :=
  match float_value x with
  | Fin q => (inject_Z lo <= q)%Q /\ (q <= inject_Z hi)%Q
  | _ => False
  end.

Definition invalid_latitude : exn :=
  HTTPException 400 "Invalid latitude. Must be between -90 and 90".
Definition invalid_longitude : exn :=
  HTTPException 400 "Invalid longitude. Must be between -180 and 180".

Definition no_imagery : exn :=
  HTTPException 404 "No suitable Sentinel-2 images found for the specified criteria".
Definition missing_bands : exn :=
  HTTPException 400 "Required bands (B4 and B8) not found in the image".

Definition composite (s2_collection : ee_collection) (aoi : ee_geometry) : ee_image :=
  Clip (Median s2_collection) aoi.

Definition ndvi_raster (s2 : ee_image) : ee_image :=
  Rename (NormalizedDifference s2 ["B8"; "B4"]) "NDVI".

Definition lacks_band (band_names : list string) : bool :=
  negb (bool_decide ("B8" ∈ band_names)) || negb (bool_decide ("B4" ∈ band_names)).

Definition is_reduce (c : remote_call) : bool :=
  match c with
  | ReduceRegion _ _ _ _ _ => true
  | _ => false
  end.

(** The statistics a reducer outputs, in order. *)
Fixpoint reducer_outputs (r : ee_reducer) : list string :=
  match r with
  | Reducer_mean => ["mean"]
  | Reducer_minMax => ["min"; "max"]
  | Reducer_stdDev => ["stdDev"]
  | Reducer_combine r1 r2 _ => reducer_outputs r1 ++ reducer_outputs r2
  end.

(** Every combination in the reducer is made with [sharedInputs=True]. *)
Fixpoint shares_inputs (r : ee_reducer) : bool :=
  match r with
  | Reducer_combine r1 r2 shared => shared && shares_inputs r1 && shares_inputs r2
  | _ => true
  end.

Definition zonal_reduction (aoi : ee_geometry) (c : remote_call) : Prop :=
  match c with
  | ReduceRegion i r g scale maxPixels =>
      scale = 10 /\ maxPixels = 1e9%float /\ g = aoi
      /\ (exists s2, i = ndvi_raster s2)
      /\ reducer_outputs r = ["mean"; "min"; "max"; "stdDev"]
      /\ shares_inputs r = true
  | _ => True
  end.

Definition thumbnail_fixed (c : remote_call) : Prop :=
  match c with
  | GetThumbURL _ params => params = vis_params
  | _ => True
  end.

Definition with_dimensions (request : LocationRequest) (w h : option Z) : LocationRequest :=
  {| latitude := latitude request; longitude := longitude request;
     buffer_distance := buffer_distance request; days_back := days_back request;
     cloud_threshold := cloud_threshold request;
     image_width := w; image_height := h |}.

Definition numeric (v : pyval) : Prop := is_Some (py_number v).

(** What the code relies on from Pillow: [convert] gives the requested
    mode and keeps the size; [resize] gives the requested size and keeps
    the mode. *)
Definition pil_contract (E : environment) : Prop :=
  (forall i m i', Image_convert E i m = Ok i' -> mode i' = m /\ size i' = size i)
  /\ (forall i w h f i',
        Image_resize E i (Some w, Some h) f = Ok i' ->
        size i' = (w, h) /\ mode i' = mode i).

Definition stats_without_mean : gmap string pyval :=
  {[ "NDVI_max" := PyFloat 0.75%float ]}.

Section Errors.

Variable E : environment.

(** What the [except Exception] clause of the extractor makes of [e]. *)
Definition ndvi_error (e : exn) : exn :=
  HTTPException 500 ("Error processing NDVI: " +:+ str_exn E e).

(** What the endpoint's [except] clauses make of [e]. *)
Definition endpoint_error (e : exn) : exn :=
  match e with
  | HTTPException _ _ => e
  | Exception _ _ => HTTPException 500 ("Internal server error: " +:+ str_exn E e)
  end.

(** What the [except Exception] clause of the normalizer makes of [e]. *)
Definition image_error (e : exn) : exn :=
  HTTPException 500 ("Error processing image: " +:+ str_exn E e).

End Errors.

(** ** Names for the properties of the whole run *)

(** The four requests of a complete extractor run, in the order the code
    makes them, for the window that starts on day [start]. *)
Definition extractor_calls (E : environment) (lat lon : float) (b c : option Z)
    (start : Z) : list remote_call :=
  let aoi := area_of_interest lat lon b in
  let coll := s2_filtered E aoi start (today E) c in
  let ndvi := ndvi_raster (composite coll aoi) in
  [CollectionSize coll;
   BandNames (composite coll aoi);
   ReduceRegion ndvi stats_reducer aoi 10 1e9%float;
   GetThumbURL ndvi vis_params].

Definition is_download (c : remote_call) : bool :=
  match c with
  | HttpGet _ _ => true
  | _ => false
  end.

(** The position of a label on the scale from stressed to healthy. *)
Definition label_rank (label : string) : nat :=
  if String.eqb label "Severe Stress / Bare Soil" then 0
  else if String.eqb label "Stressed Vegetation" then 1
  else if String.eqb label "Moderate Health" then 2
  else if String.eqb label "Healthy" then 3
  else 4.

(** The message of the [TypeError] that [v < 0.2] raises. *)
Definition not_comparable (v : pyval) : exn :=
  Exception "TypeError"
    ("'<' not supported between instances of '" +:+ type_name v +:+ "' and 'float'").

(** [E] with a download that answers with the given status. *)
Definition with_http_status (E : environment) (status : Z) (reason : string)
  : environment :=
  {| today := today E;
     isoformat := isoformat E;
     size_getInfo := size_getInfo E;
     bandNames_getInfo := bandNames_getInfo E;
     reduceRegion_getInfo := reduceRegion_getInfo E;
     getThumbURL := getThumbURL E;
     requests_get := fun url _ =>
       Ok {| http_status := status; http_reason := reason; http_url := url;
             content := [] |};
     Image_open := Image_open E;
     Image_convert := Image_convert E;
     Image_resize := Image_resize E;
     Image_save := Image_save E;
     str_exn := str_exn E;
     str_float := str_float E;
     str_dict := str_dict E |}.

(** A request with the three integer parameters as given. *)
Definition request_with (lat lon : float) (b d c : option Z) : LocationRequest :=
  {| latitude := lat; longitude := lon;
     buffer_distance := b; days_back := d; cloud_threshold := c;
     image_width := Some 800; image_height := Some 600 |}.

(** ** Names for the steps of a run *)


(** The extractor gets as far as the zonal reduction: the window that
    starts on day [start] is a valid date range, the filtered collection
    is not empty and its composite has both B8 and B4. *)
Definition reaches_reduction (E : environment) (lat lon : float)
    (b d c : option Z) (start : Z) : Prop :=
  let aoi := area_of_interest lat lon b in
  let coll := s2_filtered E aoi start (today E) c in
  exists delta n band_names,
    timedelta d = Ok delta
    /\ date_sub (today E) delta = Ok start
    /\ size_getInfo E coll = Ok n /\ n <> 0
    /\ bandNames_getInfo E (composite coll aoi) = Ok band_names
    /\ "B8" ∈ band_names /\ "B4" ∈ band_names.

(** [rgb] is the decoded image in three-channel colour: the image itself
    when it is RGB already, what [convert] made of it otherwise. *)
Definition converted (E : environment) (img rgb : image) : Prop :=
  (mode img = "RGB" /\ rgb = img)
  \/ (mode img <> "RGB" /\ Image_convert E img "RGB" = Ok rgb).

(** [final] is [rgb] at the target size: [rgb] itself when it has that
    size, its LANCZOS resampling otherwise. *)
Definition resampled (E : environment) (w h : Z) (rgb final : image) : Prop :=
  (size rgb = (w, h) /\ final = rgb)
  \/ (size rgb <> (w, h) /\ Image_resize E rgb (Some w, Some h) LANCZOS = Ok final).

(** [E] with an encoder whose output tells the mode and size it was
    given. *)
Definition with_encoder (E : environment) : environment :=
  {| today := today E;
     isoformat := isoformat E;
     size_getInfo := size_getInfo E;
     bandNames_getInfo := bandNames_getInfo E;
     reduceRegion_getInfo := reduceRegion_getInfo E;
     getThumbURL := getThumbURL E;
     requests_get := requests_get E;
     Image_open := Image_open E;
     Image_convert := Image_convert E;
     Image_resize := Image_resize E;
     Image_save := fun i format _ =>
       Ok (String.list_byte_of_string
             (format +:+ " " +:+ mode i +:+ " " +:+ pretty (size i).1
                +:+ "x" +:+ pretty (size i).2));
     str_exn := str_exn E;
     str_float := str_float E;
     str_dict := str_dict E |}.

(** Statistics with a mean and a null minimum. *)
Definition stats_with_null_min : gmap string pyval :=
  {[ "NDVI_mean" := PyFloat 0.5%float; "NDVI_min" := PyNone ]}.

(** * Properties *)

(** ** The code on sample inputs *)

Example classify_02 : classify (PyFloat 0.2%float) = Ok "Stressed Vegetation".
Proof. vm_compute. reflexivity. Qed.

Example classify_0 : classify (PyInt 0) = Ok "Severe Stress / Bare Soil".
Proof. vm_compute. reflexivity. Qed.

Example classify_nan : classify (PyFloat nan) = Ok "Very Healthy".
Proof. vm_compute. reflexivity. Qed.

Example value_02 : float_value 0.2%float = Fin (7205759403792794 # 36028797018963968).
Proof. vm_compute. reflexivity. Qed.

Example stats_run :
  exists r t, get_ndvi_stats (fake_env 3 s2_bands full_stats) (default_request 40 (-100)) [] = (Ok r, t)
    /\ ndvi_stats r !! "health_status" = Some (PyStr "Moderate Health")
    /\ length t = 4%nat.
Proof. eexists _, _. vm_compute. split; [reflexivity|]. split; reflexivity. Qed.

(** ** Comparisons of numbers *)

Lemma Qlt_bool_iff (x y : Q) : Qlt_bool x y = true <-> (x < y)%Q.
Proof.
  unfold Qlt_bool. rewrite negb_true_iff. split.
  - intros Hb. apply Qnot_le_lt. intros Hle.
    apply Qle_bool_iff in Hle. congruence.
  - intros Hlt. destruct (Qle_bool y x) eqn:Hb; [|reflexivity].
    apply Qle_bool_iff in Hb. exfalso. revert Hb. now apply Qlt_not_le.
Qed.

Lemma Qlt_bool_false (x y : Q) : Qlt_bool x y = false <-> (y <= x)%Q.
Proof.
  unfold Qlt_bool. rewrite negb_false_iff. apply Qle_bool_iff.
Qed.

Lemma float_value_0_2 : float_value 0.2%float = Fin (threshold 0.2%float).
Proof. vm_compute. reflexivity. Qed.
Lemma float_value_0_4 : float_value 0.4%float = Fin (threshold 0.4%float).
Proof. vm_compute. reflexivity. Qed.
Lemma float_value_0_6 : float_value 0.6%float = Fin (threshold 0.6%float).
Proof. vm_compute. reflexivity. Qed.
Lemma float_value_0_8 : float_value 0.8%float = Fin (threshold 0.8%float).
Proof. vm_compute. reflexivity. Qed.

Lemma thresholds_increasing :
  (0 < threshold 0.2%float)%Q /\
  (threshold 0.2%float < threshold 0.4%float)%Q /\
  (threshold 0.4%float < threshold 0.6%float)%Q /\
  (threshold 0.6%float < threshold 0.8%float)%Q /\
  (threshold 0.8%float < 1)%Q.
Proof. repeat split; vm_compute; reflexivity. Qed.

Lemma classify_number (mean : pyval) (n : number) :
  py_number mean = Some n ->
  classify mean =
    Ok (if num_lt n (float_value 0.2%float) then "Severe Stress / Bare Soil"
        else if num_lt n (float_value 0.4%float) then "Stressed Vegetation"
        else if num_lt n (float_value 0.6%float) then "Moderate Health"
        else if num_lt n (float_value 0.8%float) then "Healthy"
        else "Very Healthy").
Proof.
  intros Hn. unfold classify, py_lt_float. rewrite Hn. cbn [rbind].
  repeat (destruct (num_lt n _); [reflexivity|]; cbn [rbind]).
  reflexivity.
Qed.

Lemma classify_not_number (mean : pyval) :
  py_number mean = None -> exists msg, classify mean = Raise (Exception "TypeError" msg).
Proof.
  intros Hn. unfold classify, py_lt_float. rewrite Hn. cbn [rbind]. eauto.
Qed.

(** C1: for every numeric mean the classification returns exactly one of
    the five labels and never the placeholder [Unknown]; for a real mean
    [q] the label is the first threshold (the values of the literals 0.2,
    0.4, 0.6, 0.8) that [q] is strictly below, [Very Healthy] when there
    is none; a mean of 0.2 is [Stressed Vegetation] and a mean of 0.8 is
    [Very Healthy]. *)
Theorem classify_total_first_match (mean : pyval) (n : number) :
  py_number mean = Some n ->
  (exists label,
      classify mean = Ok label
      /\ label ∈ health_labels
      /\ label <> "Unknown"
      /\ forall q, n = Fin q ->
           ((q < threshold 0.2%float)%Q -> label = "Severe Stress / Bare Soil")
           /\ ((threshold 0.2%float <= q)%Q -> (q < threshold 0.4%float)%Q ->
               label = "Stressed Vegetation")
           /\ ((threshold 0.4%float <= q)%Q -> (q < threshold 0.6%float)%Q ->
               label = "Moderate Health")
           /\ ((threshold 0.6%float <= q)%Q -> (q < threshold 0.8%float)%Q ->
               label = "Healthy")
           /\ ((threshold 0.8%float <= q)%Q -> label = "Very Healthy"))
  /\ classify (PyFloat 0.2%float) = Ok "Stressed Vegetation"
  /\ classify (PyFloat 0.8%float) = Ok "Very Healthy".
Proof.
  intros Hn. split; [|split; vm_compute; reflexivity].
  rewrite (classify_number _ _ Hn).
  rewrite float_value_0_2, float_value_0_4, float_value_0_6, float_value_0_8.
  destruct thresholds_increasing as (H0 & H24 & H46 & H68 & H8).
  eexists. split; [reflexivity|].
  destruct n as [ | | |q]; cbn [num_lt].
  1-3: (split; [unfold health_labels; set_solver|]; split; [discriminate|];
        intros q' [=]).
  destruct (Qlt_bool q (threshold 0.2%float)) eqn:C1;
    [|destruct (Qlt_bool q (threshold 0.4%float)) eqn:C2;
      [|destruct (Qlt_bool q (threshold 0.6%float)) eqn:C3;
        [|destruct (Qlt_bool q (threshold 0.8%float)) eqn:C4]]];
    (split; [unfold health_labels; set_solver|]; split; [discriminate|]);
    intros q' [= <-];
    rewrite ?Qlt_bool_iff, ?Qlt_bool_false in *;
    repeat split; intros; try reflexivity; exfalso; lra.
Qed.

Lemma classify_total_first_match_witness :
  py_number (PyInt 0) = Some (int_value 0)
  /\ exists label,
       classify (PyInt 0) = Ok label /\ label ∈ health_labels /\ label <> "Unknown".
Proof.
  split; [reflexivity|].
  destruct (classify_total_first_match (PyInt 0) (int_value 0) eq_refl)
    as [(label & Hc & Hin & Hne & _) _].
  exists label. auto.
Defined.

(** ** Coordinate validation *)

Lemma between_spec (lo : Z) (x : float) (hi : Z) :
  between lo x hi = true <-> in_range lo x hi.
Proof.
  unfold between, in_range, int_value.
  destruct (float_value x) as [ | | |q]; cbn [num_le];
    rewrite ?andb_true_iff, ?Qle_bool_iff; intuition discriminate.
Qed.

Lemma validate_coordinates_eq (request : LocationRequest) (t : list remote_call) :
  validate_coordinates request t =
    if between (-90) (latitude request) 90 then
      if between (-180) (longitude request) 180 then (Ok tt, t)
      else (Raise invalid_longitude, t)
    else (Raise invalid_latitude, t).
Proof.
  unfold validate_coordinates, bind, when_raise, raise, ret.
  destruct (between (-90) (latitude request) 90),
    (between (-180) (longitude request) 180); reflexivity.
Qed.

Section Endpoints.

Variable E : environment.

Lemma endpoint_guard_bind_validate {A} (request : LocationRequest) (k : M A)
    (t : list remote_call) :
  endpoint_guard E (validate_coordinates request ;;; k) t =
    if between (-90) (latitude request) 90 then
      if between (-180) (longitude request) 180 then endpoint_guard E k t
      else (Raise invalid_longitude, t)
    else (Raise invalid_latitude, t).
Proof.
  unfold endpoint_guard, try_except, bind. rewrite validate_coordinates_eq.
  destruct (between (-90) (latitude request) 90),
    (between (-180) (longitude request) 180); reflexivity.
Qed.

(** C5: a request whose latitude is not in [-90, 90] or whose longitude is
    not in [-180, 180] is answered by both endpoints with the 400
    invalid-coordinates error, and the log of remote calls is left as it
    was: no catalog query, statistics, thumbnail or download happens. *)
Theorem invalid_coordinates_rejected_before_remote_calls
    (request : LocationRequest) (t : list remote_call) :
  ~ in_range (-90) (latitude request) 90 \/ ~ in_range (-180) (longitude request) 180 ->
  exists e,
    (e = invalid_latitude \/ e = invalid_longitude)
    /\ generate_ndvi_image E request t = (Raise e, t)
    /\ get_ndvi_stats E request t = (Raise e, t).
Proof.
  intros Hout. unfold generate_ndvi_image, get_ndvi_stats.
  rewrite !endpoint_guard_bind_validate.
  destruct (between (-90) (latitude request) 90) eqn:Hlat.
  - destruct (between (-180) (longitude request) 180) eqn:Hlon.
    + apply between_spec in Hlat, Hlon. tauto.
    + exists invalid_longitude. auto.
  - exists invalid_latitude. auto.
Qed.

End Endpoints.

Lemma invalid_coordinates_rejected_before_remote_calls_witness :
  exists e,
    (e = invalid_latitude \/ e = invalid_longitude)
    /\ generate_ndvi_image (fake_env 3 s2_bands full_stats) (default_request 95 200) []
       = (Raise e, [])
    /\ get_ndvi_stats (fake_env 3 s2_bands full_stats) (default_request 95 200) []
       = (Raise e, []).
Proof.
  apply (invalid_coordinates_rejected_before_remote_calls
           (fake_env 3 s2_bands full_stats) (default_request 95 200) []).
  left. rewrite <- between_spec. vm_compute. discriminate.
Defined.

(** ** The extractor, step by step *)

Section Extractor.

Variable E : environment.

Lemma get_ndvi_image_url_eq (lat lon : float) (b d c : option Z) (t : list remote_call) :
  get_ndvi_image_url E lat lon b d c t =
    let aoi := area_of_interest lat lon b in
    match timedelta d with
    | Raise e => (Raise (ndvi_error E e), t)
    | Ok delta =>
    match date_sub (today E) delta with
    | Raise e => (Raise (ndvi_error E e), t)
    | Ok start =>
    let coll := s2_filtered E aoi start (today E) c in
    let t1 := t ++ [CollectionSize coll] in
    match size_getInfo E coll with
    | Raise e => (Raise (ndvi_error E e), t1)
    | Ok n =>
    if n =? 0 then (Raise (ndvi_error E no_imagery), t1) else
    let s2 := composite coll aoi in
    let t2 := t1 ++ [BandNames s2] in
    match bandNames_getInfo E s2 with
    | Raise e => (Raise (ndvi_error E e), t2)
    | Ok band_names =>
    if lacks_band band_names then (Raise (ndvi_error E missing_bands), t2) else
    let ndvi := ndvi_raster s2 in
    let t3 := t2 ++ [ReduceRegion ndvi stats_reducer aoi 10 1e9%float] in
    match reduceRegion_getInfo E ndvi stats_reducer aoi 10 1e9%float with
    | Raise e => (Raise (ndvi_error E e), t3)
    | Ok stats =>
    let t4 := t3 ++ [GetThumbURL ndvi vis_params] in
    match getThumbURL E ndvi vis_params with
    | Raise e => (Raise (ndvi_error E e), t4)
    | Ok url => (Ok (url, stats), t4)
    end end end end end end.
Proof.
  unfold get_ndvi_image_url, try_except, bind, lift, call, when_raise, raise, ret,
    ndvi_error, no_imagery, missing_bands, composite, ndvi_raster, lacks_band.
  cbv zeta.
  destruct (timedelta d) as [delta|e]; [|reflexivity].
  destruct (date_sub (today E) delta) as [start|e]; [|reflexivity].
  destruct (size_getInfo E _) as [n|e]; [|reflexivity].
  destruct (n =? 0); [reflexivity|].
  destruct (bandNames_getInfo E _) as [band_names|e]; [|reflexivity].
  destruct (negb (bool_decide ("B8" ∈ band_names))
            || negb (bool_decide ("B4" ∈ band_names))); [reflexivity|].
  destruct (reduceRegion_getInfo E _ _ _ _ _) as [stats|e]; [|reflexivity].
  destruct (getThumbURL E _ _) as [url|e]; reflexivity.
Qed.

(** Whatever goes wrong inside the extractor leaves it as a 500. *)
Lemma get_ndvi_image_url_raises (lat lon : float) (b d c : option Z)
    (t t' : list remote_call) (e : exn) :
  get_ndvi_image_url E lat lon b d c t = (Raise e, t') ->
  exists cause, e = ndvi_error E cause.
Proof.
  rewrite get_ndvi_image_url_eq. cbv zeta.
  repeat match goal with
         | |- context [match ?x with _ => _ end] => destruct x
         end;
    intros [= <- <-]; eauto.
Qed.

End Extractor.

(** ** The stats endpoint *)

Section Stats.

Variable E : environment.

Lemma get_ndvi_stats_eq (request : LocationRequest) (t : list remote_call) :
  get_ndvi_stats E request t =
    if between (-90) (latitude request) 90 then
      if between (-180) (longitude request) 180 then
        match get_ndvi_image_url E (latitude request) (longitude request)
                (buffer_distance request) (days_back request)
                (cloud_threshold request) t with
        | (Ok r, t1) =>
            let mean_ndvi := default (PyInt 0) (r.2 !! "NDVI_mean") in
            match classify mean_ndvi with
            | Ok health_status =>
                (Ok (stats_response request r.2 mean_ndvi health_status), t1)
            | Raise e => (Raise (endpoint_error E e), t1)
            end
        | (Raise e, t1) => (Raise e, t1)
        end
      else (Raise invalid_longitude, t)
    else (Raise invalid_latitude, t).
Proof.
  unfold get_ndvi_stats. rewrite endpoint_guard_bind_validate.
  destruct (between (-90) (latitude request) 90); [|reflexivity].
  destruct (between (-180) (longitude request) 180); [|reflexivity].
  unfold endpoint_guard, try_except, bind, lift, ret, raise.
  destruct (get_ndvi_image_url E _ _ _ _ _ t) as [[r|e] t1] eqn:Hrun.
  - cbv zeta. destruct (classify _) as [hs|e]; [reflexivity|].
    destruct e; reflexivity.
  - apply get_ndvi_image_url_raises in Hrun as [cause ->]. reflexivity.
Qed.

Lemma get_ndvi_stats_success (request : LocationRequest) (t t1 : list remote_call)
    (resp : NDVIResponse) :
  get_ndvi_stats E request t = (Ok resp, t1) ->
  exists url stats health_status,
    get_ndvi_image_url E (latitude request) (longitude request)
      (buffer_distance request) (days_back request) (cloud_threshold request) t
    = (Ok (url, stats), t1)
    /\ classify (default (PyInt 0) (stats !! "NDVI_mean")) = Ok health_status
    /\ resp = stats_response request stats
                (default (PyInt 0) (stats !! "NDVI_mean")) health_status.
Proof.
  rewrite get_ndvi_stats_eq.
  destruct (between (-90) (latitude request) 90); [|discriminate].
  destruct (between (-180) (longitude request) 180); [|discriminate].
  destruct (get_ndvi_image_url E _ _ _ _ _ t) as [[[url stats]|e] t'];
    [|discriminate].
  cbn [snd]. cbv zeta.
  destruct (classify _) as [hs|e] eqn:Hc; [|discriminate].
  intros [= <- <-]. exists url, stats, hs. repeat split; assumption.
Qed.


(** C9: in a successful stats response the entries [min_ndvi],
    [max_ndvi] and [std_ndvi] are the provider's [NDVI_min], [NDVI_max]
    and [NDVI_stdDev], each replaced by 0 on its own when the provider's
    result lacks it; all four statistics are present, and the mean is a
    number. *)
Theorem absent_statistics_default_to_zero (request : LocationRequest)
    (t t1 : list remote_call) (resp : NDVIResponse) :
  get_ndvi_stats E request t = (Ok resp, t1) ->
  exists url stats,
    get_ndvi_image_url E (latitude request) (longitude request)
      (buffer_distance request) (days_back request) (cloud_threshold request) t
    = (Ok (url, stats), t1)
    /\ ndvi_stats resp !! "min_ndvi" = Some (default (PyInt 0) (stats !! "NDVI_min"))
    /\ ndvi_stats resp !! "max_ndvi" = Some (default (PyInt 0) (stats !! "NDVI_max"))
    /\ ndvi_stats resp !! "std_ndvi" = Some (default (PyInt 0) (stats !! "NDVI_stdDev"))
    /\ (stats !! "NDVI_min" = None -> ndvi_stats resp !! "min_ndvi" = Some (PyInt 0))
    /\ (stats !! "NDVI_max" = None -> ndvi_stats resp !! "max_ndvi" = Some (PyInt 0))
    /\ (stats !! "NDVI_stdDev" = None -> ndvi_stats resp !! "std_ndvi" = Some (PyInt 0))
    /\ (exists mean, ndvi_stats resp !! "mean_ndvi" = Some mean /\ numeric mean)
    /\ ((forall k v, stats !! k = Some v -> numeric v) ->
        forall k, k ∈ ["mean_ndvi"; "min_ndvi"; "max_ndvi"; "std_ndvi"] ->
        exists v, ndvi_stats resp !! k = Some v /\ numeric v).
Proof.
  intros (url & stats & hs & Hrun & Hc & ->)%get_ndvi_stats_success.
  exists url, stats. split; [assumption|].
  assert (Hmin : ndvi_stats (stats_response request stats
                   (default (PyInt 0) (stats !! "NDVI_mean")) hs) !! "min_ndvi"
                 = Some (default (PyInt 0) (stats !! "NDVI_min"))) by reflexivity.
  assert (Hmax : ndvi_stats (stats_response request stats
                   (default (PyInt 0) (stats !! "NDVI_mean")) hs) !! "max_ndvi"
                 = Some (default (PyInt 0) (stats !! "NDVI_max"))) by reflexivity.
  assert (Hstd : ndvi_stats (stats_response request stats
                   (default (PyInt 0) (stats !! "NDVI_mean")) hs) !! "std_ndvi"
                 = Some (default (PyInt 0) (stats !! "NDVI_stdDev"))) by reflexivity.
  assert (Hmean : numeric (default (PyInt 0) (stats !! "NDVI_mean"))).
  { unfold numeric. destruct (py_number _) eqn:Hn; [eauto|].
    apply classify_not_number in Hn as [msg Hn]. congruence. }
  assert (Hdef : (forall k v, stats !! k = Some v -> numeric v) ->
                 forall k, numeric (default (PyInt 0) (stats !! k))).
  { intros Hnum k. destruct (stats !! k) as [v|] eqn:Hk; cbn [default].
    - eapply Hnum, Hk.
    - unfold numeric. cbn. eauto. }
  repeat split; try assumption.
  - intros Habs. rewrite Hmin, Habs. reflexivity.
  - intros Habs. rewrite Hmax, Habs. reflexivity.
  - intros Habs. rewrite Hstd, Habs. reflexivity.
  - exists (default (PyInt 0) (stats !! "NDVI_mean")). split; [reflexivity|assumption].
  - intros Hnum k Hk.
    repeat (apply elem_of_cons in Hk as [->|Hk]); [..|inversion Hk]; eauto.
Qed.

(** C10: a successful stats response carries the request's latitude,
    longitude, buffer distance and number of days unchanged, and its
    status is [success]. *)
Theorem stats_response_echoes_request (request : LocationRequest)
    (t t1 : list remote_call) (resp : NDVIResponse) :
  get_ndvi_stats E request t = (Ok resp, t1) ->
  location resp !! "latitude" = Some (PyFloat (latitude request))
  /\ location resp !! "longitude" = Some (PyFloat (longitude request))
  /\ location resp !! "buffer_distance_m" = Some (py_optint (buffer_distance request))
  /\ ndvi_stats resp !! "analysis_period_days" = Some (py_optint (days_back request))
  /\ status resp = "success".
Proof.
  intros (url & stats & hs & _ & _ & ->)%get_ndvi_stats_success.
  repeat split; reflexivity.
Qed.

End Stats.

(** ** Remote-call logs *)

Ltac split_matches :=
  repeat match goal with
         | |- context [match ?x with _ => _ end] => destruct x
         end.

Example maxPixels_value : float_value 1e9%float = Fin (8388608000000000 # 8388608).
Proof. vm_compute. reflexivity. Qed.

Section Logs.

Variable E : environment.

(** Every zonal reduction the extractor requests, in any run, has the
    fixed parameters; there is at most one per run. *)
Lemma reduce_requests_are_zonal (lat lon : float) (b d c : option Z) :
  let run := get_ndvi_image_url E lat lon b d c [] in
  Forall (zonal_reduction (area_of_interest lat lon b)) run.2
  /\ (length (List.filter is_reduce run.2) <= 1)%nat
  /\ forall v, run.1 = Ok v -> length (List.filter is_reduce run.2) = 1%nat.
Proof.
  cbv zeta. rewrite get_ndvi_image_url_eq. cbv zeta.
  split_matches; cbn [fst snd app List.filter is_reduce length];
    (split; [|split; [lia|intros v [=]; try reflexivity]]);
    repeat (constructor; try exact I);
    unfold zonal_reduction; repeat split; eauto.
Qed.

Lemma download_and_convert_image_log (url : string) (w h : option Z)
    (t : list remote_call) :
  (download_and_convert_image E url w h t).2 = t ++ [HttpGet url 30].
Proof.
  unfold download_and_convert_image, try_except, bind, lift, call, raise, ret.
  destruct (requests_get E url 30) as [response|e]; [|reflexivity].
  destruct (raise_for_status response) as [[]|e]; [|reflexivity].
  destruct (Image_open E (content response)) as [img|e]; [|reflexivity].
  destruct (negb (String.eqb (mode img) "RGB"));
    [destruct (Image_convert E img "RGB") as [rgb|e]; [|reflexivity]|];
    (match goal with
     | |- context [size_eq (size ?i) _] =>
         destruct (negb (size_eq (size i) (w, h)));
         [destruct (Image_resize E i (w, h) LANCZOS) as [final|e]; [|reflexivity]|]
     end);
    (match goal with
     | |- context [Image_save E ?i _ _] => destruct (Image_save E i "JPEG" 95)
     end); reflexivity.
Qed.

Lemma generate_ndvi_image_log (request : LocationRequest) (t : list remote_call) :
  (generate_ndvi_image E request t).2 =
    if between (-90) (latitude request) 90 then
      if between (-180) (longitude request) 180 then
        match get_ndvi_image_url E (latitude request) (longitude request)
                (buffer_distance request) (days_back request)
                (cloud_threshold request) t with
        | (Ok r, t1) => t1 ++ [HttpGet r.1 30]
        | (Raise _, t1) => t1
        end
      else t
    else t.
Proof.
  unfold generate_ndvi_image. rewrite endpoint_guard_bind_validate.
  destruct (between (-90) (latitude request) 90); [|reflexivity].
  destruct (between (-180) (longitude request) 180); [|reflexivity].
  unfold endpoint_guard, try_except, bind.
  destruct (get_ndvi_image_url E _ _ _ _ _ t) as [[r|e] t1] eqn:Hrun.
  - pose proof (download_and_convert_image_log r.1 (image_width request)
                  (image_height request) t1) as Hlog.
    destruct (download_and_convert_image E r.1 _ _ t1) as [[out|e] t2];
      cbn [snd] in Hlog; subst t2; [reflexivity|].
    destruct e; reflexivity.
  - destruct e; reflexivity.
Qed.

Lemma get_ndvi_image_url_thumbnail (lat lon : float) (b d c : option Z) :
  Forall thumbnail_fixed (get_ndvi_image_url E lat lon b d c []).2.
Proof.
  rewrite get_ndvi_image_url_eq. cbv zeta.
  split_matches; cbn [fst snd app]; repeat (constructor; try exact I).
Qed.

End Logs.

(** ** The raster normalizer *)

Lemma BytesIO_written (data : bytes) :
  BytesIO_seek (BytesIO_write BytesIO_new data) 0
  = {| buffer := data; position := 0 |}.
Proof.
  unfold BytesIO_seek, BytesIO_write, BytesIO_new. cbn.
  rewrite drop_nil, app_nil_r. reflexivity.
Qed.

Lemma size_eq_spec (s : Z * Z) (w h : Z) :
  size_eq s (Some w, Some h) = true <-> s = (w, h).
Proof.
  unfold size_eq. rewrite bool_decide_eq_true. destruct s as [a b]. cbn.
  split; [intros [= -> ->]|intros [= -> ->]]; reflexivity.
Qed.

Lemma fake_env_pil_contract (scenes : Z) (bands : list string)
    (stats : gmap string pyval) :
  pil_contract (fake_env scenes bands stats).
Proof.
  split.
  - intros i m i' [= <-]. split; reflexivity.
  - intros i w h f i'. cbn [Image_resize fake_env]. unfold fake_resize.
    destruct ((1 <=? w) && (1 <=? h)); [|discriminate].
    intros [= <-]. split; reflexivity.
Qed.

(** ** The two HTTP errors the extractor raises itself *)

Section Swallowed.

Variable E : environment.

Lemma empty_collection_outcome (lat lon : float) (b d c : option Z)
    (t : list remote_call) (delta start : Z) :
  timedelta d = Ok delta ->
  date_sub (today E) delta = Ok start ->
  size_getInfo E (s2_filtered E (area_of_interest lat lon b) start (today E) c) = Ok 0 ->
  get_ndvi_image_url E lat lon b d c t
  = (Raise (ndvi_error E no_imagery),
     t ++ [CollectionSize (s2_filtered E (area_of_interest lat lon b) start (today E) c)]).
Proof.
  intros Hd Hs Hn. rewrite get_ndvi_image_url_eq. cbv zeta.
  rewrite Hd, Hs, Hn. reflexivity.
Qed.

Lemma missing_band_outcome (lat lon : float) (b d c : option Z)
    (t : list remote_call) (delta start n : Z) (band_names : list string) :
  let aoi := area_of_interest lat lon b in
  let coll := s2_filtered E aoi start (today E) c in
  timedelta d = Ok delta ->
  date_sub (today E) delta = Ok start ->
  size_getInfo E coll = Ok n -> n <> 0 ->
  bandNames_getInfo E (composite coll aoi) = Ok band_names ->
  "B8" ∉ band_names \/ "B4" ∉ band_names ->
  get_ndvi_image_url E lat lon b d c t
  = (Raise (ndvi_error E missing_bands),
     (t ++ [CollectionSize coll]) ++ [BandNames (composite coll aoi)]).
Proof.
  intros aoi coll Hd Hs Hn Hn0 Hb Hlack. rewrite get_ndvi_image_url_eq. cbv zeta.
  rewrite Hd, Hs. fold aoi. fold coll. rewrite Hn.
  apply Z.eqb_neq in Hn0. rewrite Hn0, Hb.
  assert (lacks_band band_names = true) as ->; [|reflexivity].
  unfold lacks_band. rewrite orb_true_iff, !negb_true_iff, !bool_decide_eq_false.
  assumption.
Qed.

(** The endpoints hand on whatever the extractor raised. *)
Lemma endpoints_pass_extractor_error (request : LocationRequest)
    (t t1 : list remote_call) (e : exn) :
  in_range (-90) (latitude request) 90 ->
  in_range (-180) (longitude request) 180 ->
  get_ndvi_image_url E (latitude request) (longitude request)
    (buffer_distance request) (days_back request) (cloud_threshold request) t
  = (Raise e, t1) ->
  get_ndvi_stats E request t = (Raise e, t1)
  /\ generate_ndvi_image E request t = (Raise e, t1).
Proof.
  intros Hlat%between_spec Hlon%between_spec Hrun. split.
  - rewrite get_ndvi_stats_eq, Hlat, Hlon, Hrun. reflexivity.
  - unfold generate_ndvi_image.
    rewrite endpoint_guard_bind_validate, Hlat, Hlon.
    unfold endpoint_guard, try_except, bind. rewrite Hrun.
    apply get_ndvi_image_url_raises in Hrun as [cause ->]. reflexivity.
Qed.

(** C2 on the code: with an empty filtered collection the only remote call
    is the size query, so no composite is requested and nothing crashes;
    but the 404 raised for it is caught by the extractor's own
    [except Exception] clause, and both endpoints answer with the 500 of a
    computation error, not with the 404. *)
Theorem empty_collection_surfaces_as_500 (request : LocationRequest)
    (t : list remote_call) (delta start : Z) :
  let coll :=
    s2_filtered E
      (area_of_interest (latitude request) (longitude request) (buffer_distance request))
      start (today E) (cloud_threshold request) in
  in_range (-90) (latitude request) 90 ->
  in_range (-180) (longitude request) 180 ->
  timedelta (days_back request) = Ok delta ->
  date_sub (today E) delta = Ok start ->
  size_getInfo E coll = Ok 0 ->
  get_ndvi_stats E request t = (Raise (ndvi_error E no_imagery), t ++ [CollectionSize coll])
  /\ generate_ndvi_image E request t
     = (Raise (ndvi_error E no_imagery), t ++ [CollectionSize coll])
  /\ (exists detail, ndvi_error E no_imagery = HTTPException 500 detail)
  /\ ndvi_error E no_imagery <> no_imagery.
Proof.
  intros coll Hlat Hlon Hd Hs Hn.
  pose proof (empty_collection_outcome (latitude request) (longitude request)
                (buffer_distance request) (days_back request)
                (cloud_threshold request) t delta start Hd Hs Hn) as Hrun.
  destruct (endpoints_pass_extractor_error request t _ _ Hlat Hlon Hrun)
    as [Hstats Himage].
  repeat split; [exact Hstats|exact Himage|unfold ndvi_error; eauto|discriminate].
Qed.

(** C4 on the code: with a composite that lacks B8 or B4 the extractor
    stops after the size and band-name queries, before any request on the
    NDVI raster; but the 400 raised for it is caught by the extractor's
    own [except Exception] clause, and both endpoints answer with the 500
    of a computation error, not with the 400. *)
Theorem missing_band_surfaces_as_500 (request : LocationRequest)
    (t : list remote_call) (delta start n : Z) (band_names : list string) :
  let aoi :=
    area_of_interest (latitude request) (longitude request) (buffer_distance request) in
  let coll := s2_filtered E aoi start (today E) (cloud_threshold request) in
  let log := (t ++ [CollectionSize coll]) ++ [BandNames (composite coll aoi)] in
  in_range (-90) (latitude request) 90 ->
  in_range (-180) (longitude request) 180 ->
  timedelta (days_back request) = Ok delta ->
  date_sub (today E) delta = Ok start ->
  size_getInfo E coll = Ok n -> n <> 0 ->
  bandNames_getInfo E (composite coll aoi) = Ok band_names ->
  "B8" ∉ band_names \/ "B4" ∉ band_names ->
  get_ndvi_stats E request t = (Raise (ndvi_error E missing_bands), log)
  /\ generate_ndvi_image E request t = (Raise (ndvi_error E missing_bands), log)
  /\ (exists detail, ndvi_error E missing_bands = HTTPException 500 detail)
  /\ ndvi_error E missing_bands <> missing_bands.
Proof.
  intros aoi coll log Hlat Hlon Hd Hs Hn Hn0 Hb Hlack.
  pose proof (missing_band_outcome (latitude request) (longitude request)
                (buffer_distance request) (days_back request)
                (cloud_threshold request) t delta start n band_names
                Hd Hs Hn Hn0 Hb Hlack) as Hrun.
  destruct (endpoints_pass_extractor_error request t _ _ Hlat Hlon Hrun)
    as [Hstats Himage].
  repeat split; [exact Hstats|exact Himage|unfold ndvi_error; eauto|discriminate].
Qed.

End Swallowed.

Lemma empty_collection_surfaces_as_500_witness :
  get_ndvi_stats (fake_env 0 s2_bands full_stats) (default_request 40 (-100)) []
  = (Raise (HTTPException 500
       "Error processing NDVI: 404: No suitable Sentinel-2 images found for the specified criteria"),
     [CollectionSize
        (s2_filtered (fake_env 0 s2_bands full_stats)
           (area_of_interest 40 (-100) (Some 50)) 739102 739192 (Some 20))])
  /\ generate_ndvi_image (fake_env 0 s2_bands full_stats) (default_request 40 (-100)) []
     = (Raise (HTTPException 500
          "Error processing NDVI: 404: No suitable Sentinel-2 images found for the specified criteria"),
        [CollectionSize
           (s2_filtered (fake_env 0 s2_bands full_stats)
              (area_of_interest 40 (-100) (Some 50)) 739102 739192 (Some 20))]).
Proof.
  assert (Hlat : in_range (-90) 40 90)
    by (rewrite <- between_spec; vm_compute; reflexivity).
  assert (Hlon : in_range (-180) (-100) 180)
    by (rewrite <- between_spec; vm_compute; reflexivity).
  destruct (empty_collection_surfaces_as_500 (fake_env 0 s2_bands full_stats)
              (default_request 40 (-100)) [] 90 739102
              Hlat Hlon eq_refl eq_refl eq_refl) as (Hstats & Himage & _).
  split; [exact Hstats|exact Himage].
Defined.

Lemma missing_band_surfaces_as_500_witness :
  get_ndvi_stats (fake_env 3 ["B2"; "B3"; "B4"] full_stats) (default_request 40 (-100)) []
  = (Raise (HTTPException 500
       "Error processing NDVI: 400: Required bands (B4 and B8) not found in the image"),
     [CollectionSize
        (s2_filtered (fake_env 3 ["B2"; "B3"; "B4"] full_stats)
           (area_of_interest 40 (-100) (Some 50)) 739102 739192 (Some 20));
      BandNames
        (composite
           (s2_filtered (fake_env 3 ["B2"; "B3"; "B4"] full_stats)
              (area_of_interest 40 (-100) (Some 50)) 739102 739192 (Some 20))
           (area_of_interest 40 (-100) (Some 50)))])
  /\ (generate_ndvi_image (fake_env 3 ["B2"; "B3"; "B4"] full_stats)
        (default_request 40 (-100)) []).1
     = Raise (HTTPException 500
         "Error processing NDVI: 400: Required bands (B4 and B8) not found in the image").
Proof.
  assert (Hlat : in_range (-90) 40 90)
    by (rewrite <- between_spec; vm_compute; reflexivity).
  assert (Hlon : in_range (-180) (-100) 180)
    by (rewrite <- between_spec; vm_compute; reflexivity).
  assert (Hlack : "B8" ∉ ["B2"; "B3"; "B4"] \/ "B4" ∉ ["B2"; "B3"; "B4"])
    by (left; rewrite list_elem_of_In; cbn; intuition discriminate).
  assert (Hn0 : 3 <> 0) by lia.
  destruct (missing_band_surfaces_as_500 (fake_env 3 ["B2"; "B3"; "B4"] full_stats)
              (default_request 40 (-100)) [] 90 739102 3 ["B2"; "B3"; "B4"]
              Hlat Hlon eq_refl eq_refl eq_refl Hn0 eq_refl Hlack)
    as (Hstats & Himage & _).
  split; [exact Hstats|]. rewrite Himage. reflexivity.
Defined.

(** ** The stats endpoint on the test double *)


Lemma stats_run_without_mean :
  exists resp t1,
    get_ndvi_stats (fake_env 3 s2_bands stats_without_mean) (default_request 40 (-100)) []
    = (Ok resp, t1).
Proof. eexists _, _. vm_compute. reflexivity. Qed.

Lemma absent_statistics_default_to_zero_witness :
  exists resp t1,
    get_ndvi_stats (fake_env 3 s2_bands stats_without_mean) (default_request 40 (-100)) []
    = (Ok resp, t1)
    /\ ndvi_stats resp !! "min_ndvi" = Some (PyInt 0)
    /\ ndvi_stats resp !! "max_ndvi" = Some (PyFloat 0.75%float)
    /\ ndvi_stats resp !! "std_ndvi" = Some (PyInt 0).
Proof.
  destruct stats_run_without_mean as (resp & t1 & Hrun).
  exists resp, t1. split; [exact Hrun|].
  destruct (absent_statistics_default_to_zero _ _ _ _ _ Hrun)
    as (url & stats & Hurl & Hmin & Hmax & Hstd & _).
  vm_compute in Hurl. injection Hurl as _ <- _.
  rewrite Hmin, Hmax, Hstd. repeat split; reflexivity.
Defined.

Lemma stats_response_echoes_request_witness :
  exists resp t1,
    get_ndvi_stats (fake_env 3 s2_bands full_stats) (default_request 40 (-100)) []
    = (Ok resp, t1)
    /\ location resp !! "latitude" = Some (PyFloat 40)
    /\ location resp !! "longitude" = Some (PyFloat (-100))
    /\ location resp !! "buffer_distance_m" = Some (PyInt 50)
    /\ ndvi_stats resp !! "analysis_period_days" = Some (PyInt 90)
    /\ status resp = "success".
Proof.
  destruct stats_run as (resp & t1 & Hrun & _).
  exists resp, t1. split; [exact Hrun|].
  exact (stats_response_echoes_request _ _ _ _ _ Hrun).
Defined.

(** A mean that is present but null is not defaulted: the comparison
    raises and the endpoint answers 500. *)
Example null_mean_is_an_error :
  (get_ndvi_stats (fake_env 3 s2_bands {[ "NDVI_mean" := PyNone ]})
     (default_request 40 (-100)) []).1
  = Raise (HTTPException 500
      "Internal server error: '<' not supported between instances of 'NoneType' and 'float'").
Proof. vm_compute. reflexivity. Qed.

(** * Further properties of the code *)

(** ** The extractor's requests *)



Lemma lacks_band_false (band_names : list string) :
  lacks_band band_names = false <-> "B8" ∈ band_names /\ "B4" ∈ band_names.
Proof.
  unfold lacks_band.
  rewrite orb_false_iff, !negb_false_iff, !bool_decide_eq_true. reflexivity.
Qed.

Section ExtractorRuns.

Variable E : environment.


(** X2: the extractor returns exactly when the window is a valid date
    range, the collection is not empty, the composite has both B8 and B4,
    and the reduction and the thumbnail request answer; what it returns
    is then the provider's statistics and URL, unchanged, after the four
    requests. *)
Theorem extractor_returns_provider_results (lat lon : float) (b d c : option Z)
    (t t' : list remote_call) (url : string) (stats : gmap string pyval) :
  get_ndvi_image_url E lat lon b d c t = (Ok (url, stats), t')
  <->
  exists delta start n band_names,
    let aoi := area_of_interest lat lon b in
    let coll := s2_filtered E aoi start (today E) c in
    let ndvi := ndvi_raster (composite coll aoi) in
    timedelta d = Ok delta
    /\ date_sub (today E) delta = Ok start
    /\ size_getInfo E coll = Ok n /\ n <> 0
    /\ bandNames_getInfo E (composite coll aoi) = Ok band_names
    /\ "B8" ∈ band_names /\ "B4" ∈ band_names
    /\ reduceRegion_getInfo E ndvi stats_reducer aoi 10 1e9%float = Ok stats
    /\ getThumbURL E ndvi vis_params = Ok url
    /\ t' = t ++ extractor_calls E lat lon b c start.
Proof.
  rewrite get_ndvi_image_url_eq. cbv zeta. unfold extractor_calls. split.
  - destruct (timedelta d) as [delta|e] eqn:Hd; [|discriminate].
    destruct (date_sub (today E) delta) as [start|e] eqn:Hs; [|discriminate].
    destruct (size_getInfo E _) as [n|e] eqn:Hn; [|discriminate].
    destruct (n =? 0) eqn:Hn0; [discriminate|].
    destruct (bandNames_getInfo E _) as [band_names|e] eqn:Hb; [|discriminate].
    destruct (lacks_band band_names) eqn:Hlack; [discriminate|].
    destruct (reduceRegion_getInfo E _ _ _ _ _) as [stats'|e] eqn:Hr; [|discriminate].
    destruct (getThumbURL E _ _) as [url'|e] eqn:Hu; [|discriminate].
    intros [= <- <- <-]. exists delta, start, n, band_names.
    apply Z.eqb_neq in Hn0. apply lacks_band_false in Hlack as [H8 H4].
    rewrite <- !app_assoc. repeat split; assumption.
  - intros (delta & start & n & band_names & Hd & Hs & Hn & Hn0 & Hb & H8 & H4
            & Hr & Hu & ->).
    cbv zeta in *. rewrite Hd, Hs, Hn. apply Z.eqb_neq in Hn0. rewrite Hn0, Hb.
    assert (lacks_band band_names = false) as -> by (apply lacks_band_false; auto).
    rewrite Hr, Hu, <- !app_assoc. reflexivity.
Qed.

End ExtractorRuns.

(** ** The normalizer, step by step *)

Section NormalizerRuns.

Variable E : environment.

Lemma download_and_convert_image_eq (url : string) (w h : option Z)
    (t : list remote_call) :
  download_and_convert_image E url w h t =
    let t1 := t ++ [HttpGet url 30] in
    match requests_get E url 30 with
    | Raise e => (Raise (image_error E e), t1)
    | Ok response =>
    match raise_for_status response with
    | Raise e => (Raise (image_error E e), t1)
    | Ok _ =>
    match Image_open E (content response) with
    | Raise e => (Raise (image_error E e), t1)
    | Ok img =>
    match (if String.eqb (mode img) "RGB" then Ok img
           else Image_convert E img "RGB") with
    | Raise e => (Raise (image_error E e), t1)
    | Ok rgb =>
    match (if size_eq (size rgb) (w, h) then Ok rgb
           else Image_resize E rgb (w, h) LANCZOS) with
    | Raise e => (Raise (image_error E e), t1)
    | Ok final =>
    match Image_save E final "JPEG" 95 with
    | Raise e => (Raise (image_error E e), t1)
    | Ok data => (Ok {| buffer := data; position := 0 |}, t1)
    end end end end end end.
Proof.
  unfold download_and_convert_image, try_except, bind, lift, call, raise, ret,
    image_error.
  cbv zeta.
  destruct (requests_get E url 30) as [response|e]; [|reflexivity].
  destruct (raise_for_status response) as [[]|e]; [|reflexivity].
  destruct (Image_open E (content response)) as [img|e]; [|reflexivity].
  destruct (String.eqb (mode img) "RGB"); cbn [negb].
  - destruct (size_eq (size img) (w, h)); cbn [negb].
    + destruct (Image_save E img "JPEG" 95) as [data|e]; [|reflexivity].
      rewrite BytesIO_written. reflexivity.
    + destruct (Image_resize E img (w, h) LANCZOS) as [final|e]; [|reflexivity].
      destruct (Image_save E final "JPEG" 95) as [data|e]; [|reflexivity].
      rewrite BytesIO_written. reflexivity.
  - destruct (Image_convert E img "RGB") as [rgb|e]; [|reflexivity].
    destruct (size_eq (size rgb) (w, h)); cbn [negb].
    + destruct (Image_save E rgb "JPEG" 95) as [data|e]; [|reflexivity].
      rewrite BytesIO_written. reflexivity.
    + destruct (Image_resize E rgb (w, h) LANCZOS) as [final|e]; [|reflexivity].
      destruct (Image_save E final "JPEG" 95) as [data|e]; [|reflexivity].
      rewrite BytesIO_written. reflexivity.
Qed.

Lemma download_and_convert_image_raises (url : string) (w h : option Z)
    (t t' : list remote_call) (e : exn) :
  download_and_convert_image E url w h t = (Raise e, t') ->
  exists cause, e = image_error E cause.
Proof.
  rewrite download_and_convert_image_eq. cbv zeta.
  repeat match goal with
         | |- context [match ?x with Ok _ => _ | Raise _ => _ end] => destruct x
         end;
    intros [= <- <-]; eauto.
Qed.

Lemma download_and_convert_image_returns (url : string) (w h : option Z)
    (t t' : list remote_call) (output : BytesIO) :
  download_and_convert_image E url w h t = (Ok output, t') ->
  position output = 0 /\ t' = t ++ [HttpGet url 30].
Proof.
  rewrite download_and_convert_image_eq. cbv zeta.
  repeat match goal with
         | |- context [match ?x with Ok _ => _ | Raise _ => _ end] => destruct x
         end;
    intros [= <- <-]; auto.
Qed.

(** X3: whatever happens, the normalizer makes exactly one remote call,
    the GET of the given URL with a 30 second timeout; when it returns,
    the stream is positioned at its start; and every failure, of the
    transport, of the decoder or of the encoder, leaves it as a 500
    [Error processing image]. *)
Theorem normalizer_single_download (url : string) (w h : option Z)
    (t : list remote_call) :
  let run := download_and_convert_image E url w h t in
  run.2 = t ++ [HttpGet url 30]
  /\ (forall output, run.1 = Ok output -> position output = 0)
  /\ (forall e, run.1 = Raise e ->
      exists cause,
        e = HTTPException 500 ("Error processing image: " +:+ str_exn E cause)).
Proof.
  cbv zeta.
  destruct (download_and_convert_image E url w h t) as [[output|e] t'] eqn:Hrun;
    cbn [fst snd].
  - apply download_and_convert_image_returns in Hrun as [Hpos ->].
    split; [reflexivity|]. split; [intros o [= <-]; exact Hpos|intros e [=]].
  - pose proof (download_and_convert_image_log E url w h t) as Hlog.
    rewrite Hrun in Hlog. cbn [snd] in Hlog.
    apply download_and_convert_image_raises in Hrun as [cause ->].
    split; [exact Hlog|]. split; [intros o [=]|].
    intros e [= <-]. exists cause. reflexivity.
Qed.

(** X4: a response with a status from 400 to 599 is never decoded: the
    normalizer fails with the 500 that carries the HTTPError of
    [raise_for_status], whatever the body holds. *)
Theorem normalizer_rejects_error_status (url : string) (w h : option Z)
    (t : list remote_call) (response : http_response) :
  requests_get E url 30 = Ok response ->
  400 <= http_status response < 600 ->
  exists msg,
    raise_for_status response = Raise (Exception "HTTPError" msg)
    /\ download_and_convert_image E url w h t
       = (Raise (image_error E (Exception "HTTPError" msg)), t ++ [HttpGet url 30]).
Proof.
  intros Hget [Hlo Hhi].
  assert (exists msg, raise_for_status response = Raise (Exception "HTTPError" msg))
    as [msg Hmsg].
  { unfold raise_for_status. cbv zeta.
    destruct ((400 <=? http_status response) && (http_status response <? 500)) eqn:H4;
      [eauto|].
    destruct ((500 <=? http_status response) && (http_status response <? 600)) eqn:H5;
      [eauto|].
    exfalso. rewrite andb_false_iff in H4, H5.
    rewrite !Z.leb_gt, !Z.ltb_ge in *. lia. }
  exists msg. split; [exact Hmsg|].
  rewrite download_and_convert_image_eq. cbv zeta. rewrite Hget, Hmsg. reflexivity.
Qed.

End NormalizerRuns.

Lemma normalizer_rejects_error_status_witness :
  exists msg,
    download_and_convert_image
      (with_http_status (fake_env 3 s2_bands full_stats) 404 "Not Found")
      "https://earthengine.googleapis.com/thumb" (Some 800) (Some 600) []
    = (Raise (HTTPException 500 ("Error processing image: " +:+ msg)),
       [HttpGet "https://earthengine.googleapis.com/thumb" 30]).
Proof.
  destruct (normalizer_rejects_error_status
              (with_http_status (fake_env 3 s2_bands full_stats) 404 "Not Found")
              "https://earthengine.googleapis.com/thumb" (Some 800) (Some 600) []
              _ eq_refl ltac:(cbn; lia)) as (msg & _ & Hrun).
  exists msg. exact Hrun.
Defined.

(** ** The endpoints, step by step *)

Lemma classify_raises (v : pyval) (e : exn) :
  classify v = Raise e -> py_number v = None /\ e = not_comparable v.
Proof.
  destruct (py_number v) as [n|] eqn:Hn.
  - rewrite (classify_number v n Hn). discriminate.
  - unfold classify, py_lt_float. rewrite Hn. cbn [rbind].
    intros [= <-]. split; reflexivity.
Qed.

Lemma extractor_calls_no_download (E : environment) (lat lon : float)
    (b c : option Z) (start : Z) (calls : list remote_call) :
  calls `prefix_of` extractor_calls E lat lon b c start ->
  Forall (fun call => is_download call = false) calls.
Proof.
  intros [rest Hrest].
  assert (Forall (fun call => is_download call = false)
            (extractor_calls E lat lon b c start)) as Hall
    by (unfold extractor_calls; repeat constructor).
  rewrite Hrest in Hall. now apply Forall_app in Hall as [Hall _].
Qed.

Section EndpointRuns.

Variable E : environment.

Lemma get_ndvi_image_url_returns (lat lon : float) (b d c : option Z)
    (t t' : list remote_call) (r : string * gmap string pyval) :
  get_ndvi_image_url E lat lon b d c t = (Ok r, t') ->
  exists start,
    t' = t ++ extractor_calls E lat lon b c start
    /\ getThumbURL E
         (ndvi_raster (composite
            (s2_filtered E (area_of_interest lat lon b) start (today E) c)
            (area_of_interest lat lon b))) vis_params = Ok r.1
    /\ reduceRegion_getInfo E
         (ndvi_raster (composite
            (s2_filtered E (area_of_interest lat lon b) start (today E) c)
            (area_of_interest lat lon b)))
         stats_reducer (area_of_interest lat lon b) 10 1e9%float = Ok r.2.
Proof.
  rewrite get_ndvi_image_url_eq. cbv zeta. unfold extractor_calls.
  destruct (timedelta d) as [delta|e]; [|discriminate].
  destruct (date_sub (today E) delta) as [start|e]; [|discriminate].
  destruct (size_getInfo E _) as [n|e]; [|discriminate].
  destruct (n =? 0); [discriminate|].
  destruct (bandNames_getInfo E _) as [band_names|e]; [|discriminate].
  destruct (lacks_band band_names); [discriminate|].
  destruct (reduceRegion_getInfo E _ _ _ _ _) as [stats|e] eqn:Hr; [|discriminate].
  destruct (getThumbURL E _ _) as [url|e] eqn:Hu; [|discriminate].
  intros [= <- <-]. exists start. rewrite <- !app_assoc. auto.
Qed.

Lemma get_ndvi_image_url_fails (lat lon : float) (b d c : option Z)
    (t t' : list remote_call) (e : exn) :
  get_ndvi_image_url E lat lon b d c t = (Raise e, t') ->
  exists start calls,
    t' = t ++ calls /\ calls `prefix_of` extractor_calls E lat lon b c start.
Proof.
  rewrite get_ndvi_image_url_eq. cbv zeta. unfold extractor_calls.
  destruct (timedelta d) as [delta|e1];
    [|intros [= <- <-]; exists 0, []; rewrite app_nil_r; split;
      [reflexivity|apply prefix_nil]].
  destruct (date_sub (today E) delta) as [start|e1];
    [|intros [= <- <-]; exists 0, []; rewrite app_nil_r; split;
      [reflexivity|apply prefix_nil]].
  intros Hrun. exists start. revert Hrun.
  repeat match goal with
         | |- context [match ?x with Ok _ => _ | Raise _ => _ end] => destruct x
         | |- context [if ?x then _ else _] => destruct x
         end;
    intros [= <- <-]; rewrite <- ?app_assoc;
    (eexists; split; [reflexivity|]); eexists; reflexivity.
Qed.

Lemma generate_ndvi_image_eq (request : LocationRequest) (t : list remote_call) :
  generate_ndvi_image E request t =
    if between (-90) (latitude request) 90 then
      if between (-180) (longitude request) 180 then
        match get_ndvi_image_url E (latitude request) (longitude request)
                (buffer_distance request) (days_back request)
                (cloud_threshold request) t with
        | (Ok r, t1) =>
            match download_and_convert_image E r.1 (image_width request)
                    (image_height request) t1 with
            | (Ok jpeg_image, t2) =>
                (Ok {| body := jpeg_image;
                       media_type := "image/jpeg";
                       headers :=
                         [("Content-Disposition",
                           "inline; filename=ndvi_" +:+ str_float E (latitude request)
                             +:+ "_" +:+ str_float E (longitude request) +:+ ".jpg");
                          ("X-NDVI-Stats", str_dict E r.2)] |}, t2)
            | (Raise e, t2) => (Raise e, t2)
            end
        | (Raise e, t1) => (Raise e, t1)
        end
      else (Raise invalid_longitude, t)
    else (Raise invalid_latitude, t).
Proof.
  unfold generate_ndvi_image. rewrite endpoint_guard_bind_validate.
  destruct (between (-90) (latitude request) 90); [|reflexivity].
  destruct (between (-180) (longitude request) 180); [|reflexivity].
  unfold endpoint_guard, try_except, bind, ret, raise.
  destruct (get_ndvi_image_url E _ _ _ _ _ t) as [[r|e] t1] eqn:Hrun.
  - cbv zeta.
    destruct (download_and_convert_image E r.1 _ _ t1) as [[jpeg|e] t2] eqn:Hdl;
      [reflexivity|].
    apply download_and_convert_image_raises in Hdl as [cause ->]. reflexivity.
  - apply get_ndvi_image_url_raises in Hrun as [cause ->]. reflexivity.
Qed.

(** X5: an endpoint that fails always fails with an HTTPException, and
    only with two statuses: 400 with the latitude message exactly when the
    latitude is out of range, 400 with the longitude message exactly when
    the latitude is in range and the longitude is not, both without any
    remote call; and 500 in every other case, which needs valid
    coordinates.  No other status is ever returned. *)
Theorem endpoint_error_statuses (request : LocationRequest)
    (t t' : list remote_call) (e : exn) :
  generate_ndvi_image E request t = (Raise e, t')
  \/ get_ndvi_stats E request t = (Raise e, t') ->
  (e = invalid_latitude /\ ~ in_range (-90) (latitude request) 90 /\ t' = t)
  \/ (e = invalid_longitude /\ in_range (-90) (latitude request) 90
      /\ ~ in_range (-180) (longitude request) 180 /\ t' = t)
  \/ (exists detail,
        e = HTTPException 500 detail
        /\ in_range (-90) (latitude request) 90
        /\ in_range (-180) (longitude request) 180).
Proof.
  rewrite generate_ndvi_image_eq, get_ndvi_stats_eq.
  destruct (between (-90) (latitude request) 90) eqn:Hlat.
  2: { assert (~ in_range (-90) (latitude request) 90)
         by (rewrite <- between_spec; congruence).
       intros [[= <- <-]|[= <- <-]]; left; auto. }
  destruct (between (-180) (longitude request) 180) eqn:Hlon.
  2: { apply between_spec in Hlat.
       assert (~ in_range (-180) (longitude request) 180)
         by (rewrite <- between_spec; congruence).
       intros [[= <- <-]|[= <- <-]]; right; left; auto. }
  apply between_spec in Hlat, Hlon. intros Hfail. right. right.
  destruct (get_ndvi_image_url E _ _ _ _ _ t) as [[r|e1] t1] eqn:Hrun.
  - destruct Hfail as [Hfail|Hfail].
    + destruct (download_and_convert_image E r.1 _ _ t1) as [[jpeg|e2] t2] eqn:Hdl;
        [discriminate|].
      injection Hfail as <- <-.
      apply download_and_convert_image_raises in Hdl as [cause ->].
      unfold image_error. eauto.
    + cbv zeta in Hfail.
      destruct (classify _) as [label|e2] eqn:Hc; [discriminate|].
      injection Hfail as <- <-.
      apply classify_raises in Hc as [_ ->].
      unfold endpoint_error, not_comparable. eauto.
  - apply get_ndvi_image_url_raises in Hrun as [cause ->].
    destruct Hfail as [[= <- <-]|[= <- <-]]; unfold ndvi_error; eauto.
Qed.

(** X6: a successful image response is a JPEG stream: its body is
    exactly what the normalizer returned for the URL the thumbnail request
    answered and the requested width and height, positioned at its start;
    its X-NDVI-Stats header is the text of exactly the statistics the
    reduction returned; and the run made the four extractor requests and
    then the one download, in that order. *)
Theorem image_response_contents (request : LocationRequest)
    (t t' : list remote_call) (resp : StreamingResponse) :
  generate_ndvi_image E request t = (Ok resp, t') ->
  exists start url stats,
    let aoi :=
      area_of_interest (latitude request) (longitude request)
        (buffer_distance request) in
    let ndvi :=
      ndvi_raster
        (composite (s2_filtered E aoi start (today E) (cloud_threshold request)) aoi) in
    let calls :=
      extractor_calls E (latitude request) (longitude request)
        (buffer_distance request) (cloud_threshold request) start in
    getThumbURL E ndvi vis_params = Ok url
    /\ reduceRegion_getInfo E ndvi stats_reducer aoi 10 1e9%float = Ok stats
    /\ download_and_convert_image E url (image_width request) (image_height request)
         (t ++ calls)
       = (Ok (body resp), t')
    /\ t' = t ++ calls ++ [HttpGet url 30]
    /\ media_type resp = "image/jpeg"
    /\ position (body resp) = 0
    /\ headers resp =
         [("Content-Disposition",
           "inline; filename=ndvi_" +:+ str_float E (latitude request)
             +:+ "_" +:+ str_float E (longitude request) +:+ ".jpg");
          ("X-NDVI-Stats", str_dict E stats)].
Proof.
  rewrite generate_ndvi_image_eq.
  destruct (between (-90) (latitude request) 90); [|discriminate].
  destruct (between (-180) (longitude request) 180); [|discriminate].
  destruct (get_ndvi_image_url E _ _ _ _ _ t) as [[[url stats]|e1] t1] eqn:Hrun;
    [|discriminate].
  cbn [fst snd].
  destruct (download_and_convert_image E url _ _ t1) as [[jpeg|e2] t2] eqn:Hdl;
    [|discriminate].
  intros [= <- <-].
  apply get_ndvi_image_url_returns in Hrun as (start & -> & Hu & Hr).
  pose proof Hdl as [Hpos Hlog]%download_and_convert_image_returns.
  exists start, url, stats. cbv zeta. cbn [media_type body headers fst snd] in *.
  split; [exact Hu|]. split; [exact Hr|]. split; [exact Hdl|].
  split; [rewrite Hlog, <- app_assoc; reflexivity|].
  split; [reflexivity|]. split; [exact Hpos|reflexivity].
Qed.

(** X7: in every run of the image endpoint the download is the last
    remote call and is made only after all four extractor requests have
    answered, for the URL the thumbnail request returned; a run without a
    download made only extractor requests, in their order. *)
Theorem image_endpoint_downloads_last (request : LocationRequest)
    (t : list remote_call) :
  exists start calls,
    let lat := latitude request in
    let lon := longitude request in
    let b := buffer_distance request in
    let c := cloud_threshold request in
    (generate_ndvi_image E request t).2 = t ++ calls
    /\ (calls `prefix_of` extractor_calls E lat lon b c start
        \/ exists url,
             calls = extractor_calls E lat lon b c start ++ [HttpGet url 30]
             /\ getThumbURL E
                  (ndvi_raster
                     (composite (s2_filtered E (area_of_interest lat lon b) start
                                   (today E) c)
                        (area_of_interest lat lon b))) vis_params = Ok url).
Proof.
  cbv zeta. rewrite generate_ndvi_image_log.
  destruct (between (-90) (latitude request) 90);
    [|exists 0, []; rewrite app_nil_r; split; [reflexivity|left; apply prefix_nil]].
  destruct (between (-180) (longitude request) 180);
    [|exists 0, []; rewrite app_nil_r; split; [reflexivity|left; apply prefix_nil]].
  destruct (get_ndvi_image_url E _ _ _ _ _ t) as [[r|e] t1] eqn:Hrun.
  - apply get_ndvi_image_url_returns in Hrun as (start & -> & Hu & _).
    exists start. eexists. rewrite <- app_assoc. split; [reflexivity|].
    right. exists r.1. split; [reflexivity|exact Hu].
  - apply get_ndvi_image_url_fails in Hrun as (start & calls & -> & Hpre).
    exists start, calls. split; [reflexivity|]. left. exact Hpre.
Qed.

(** X8: the stats endpoint ignores the requested image width and height
    altogether, and never downloads anything: the remote calls it makes
    are extractor requests only, in their order. *)
Theorem stats_endpoint_ignores_image_size (request : LocationRequest)
    (w h : option Z) (t : list remote_call) :
  get_ndvi_stats E (with_dimensions request w h) t = get_ndvi_stats E request t
  /\ exists start calls,
       (get_ndvi_stats E request t).2 = t ++ calls
       /\ calls `prefix_of` extractor_calls E (latitude request) (longitude request)
                             (buffer_distance request) (cloud_threshold request) start
       /\ Forall (fun call => is_download call = false) calls.
Proof.
  split; [reflexivity|].
  assert (exists start calls,
    (get_ndvi_stats E request t).2 = t ++ calls
    /\ calls `prefix_of` extractor_calls E (latitude request) (longitude request)
                          (buffer_distance request) (cloud_threshold request) start)
    as (start & calls & Hlog & Hpre).
  { rewrite get_ndvi_stats_eq.
    destruct (between (-90) (latitude request) 90);
      [|exists 0, []; rewrite app_nil_r; split; [reflexivity|apply prefix_nil]].
    destruct (between (-180) (longitude request) 180);
      [|exists 0, []; rewrite app_nil_r; split; [reflexivity|apply prefix_nil]].
    destruct (get_ndvi_image_url E _ _ _ _ _ t) as [[r|e] t1] eqn:Hrun.
    - apply get_ndvi_image_url_returns in Hrun as (start & -> & _).
      exists start. eexists. cbv zeta.
      split; [destruct (classify _); reflexivity|reflexivity].
    - apply get_ndvi_image_url_fails in Hrun as (start & calls & -> & Hpre).
      exists start, calls. split; [reflexivity|exact Hpre]. }
  exists start, calls. split; [exact Hlog|]. split; [exact Hpre|].
  eapply extractor_calls_no_download, Hpre.
Qed.

(** X9: in a successful stats response the label is the classification
    of the very mean the response reports, it is one of the five labels,
    and that mean is the provider's [NDVI_mean] whenever the provider
    gave one. *)
Theorem stats_label_matches_reported_mean (request : LocationRequest)
    (t t' : list remote_call) (resp : NDVIResponse) :
  get_ndvi_stats E request t = (Ok resp, t') ->
  exists mean label,
    ndvi_stats resp !! "mean_ndvi" = Some mean
    /\ ndvi_stats resp !! "health_status" = Some (PyStr label)
    /\ classify mean = Ok label
    /\ label ∈ health_labels
    /\ forall url stats v,
         get_ndvi_image_url E (latitude request) (longitude request)
           (buffer_distance request) (days_back request) (cloud_threshold request) t
         = (Ok (url, stats), t') ->
         stats !! "NDVI_mean" = Some v -> mean = v.
Proof.
  intros (url & stats & label & Hrun & Hc & ->)%get_ndvi_stats_success.
  exists (default (PyInt 0) (stats !! "NDVI_mean")), label.
  split; [reflexivity|]. split; [reflexivity|]. split; [exact Hc|]. split.
  - destruct (py_number (default (PyInt 0) (stats !! "NDVI_mean"))) as [n|] eqn:Hn.
    + rewrite (classify_number _ _ Hn) in Hc. injection Hc as <-.
      unfold health_labels.
      repeat match goal with
             | |- context [if ?x then _ else _] => destruct x
             end; set_solver.
    + apply classify_not_number in Hn as [msg Hn]. congruence.
  - intros url' stats' v Hrun' Hv. rewrite Hrun in Hrun'.
    injection Hrun' as _ <-. rewrite Hv. reflexivity.
Qed.

(** X10: a successful stats response always has the same shape: status,
    message, a location with exactly the keys latitude, longitude and
    buffer_distance_m, and statistics with exactly the keys mean_ndvi,
    min_ndvi, max_ndvi, std_ndvi, health_status and
    analysis_period_days, whatever keys the provider's result had. *)
Theorem stats_response_shape (request : LocationRequest)
    (t t' : list remote_call) (resp : NDVIResponse) :
  get_ndvi_stats E request t = (Ok resp, t') ->
  message resp = "NDVI analysis completed successfully"
  /\ dom (location resp) = ({[ "latitude"; "longitude"; "buffer_distance_m" ]} : gset string)
  /\ dom (ndvi_stats resp)
     = ({[ "mean_ndvi"; "min_ndvi"; "max_ndvi"; "std_ndvi"; "health_status";
           "analysis_period_days" ]} : gset string).
Proof.
  intros (url & stats & label & _ & _ & ->)%get_ndvi_stats_success.
  split; [reflexivity|].
  unfold stats_response. cbn [location ndvi_stats].
  split; rewrite !dom_insert_L, dom_singleton_L; set_solver.
Qed.

(** X11: a mean that the provider reports but that is not a number (a
    null, a string, a list) is not defaulted: after all four extractor
    requests the stats endpoint fails with a 500 [Internal server error]
    that carries the TypeError of the first comparison. *)
Theorem non_numeric_mean_is_internal_error (request : LocationRequest)
    (t t1 : list remote_call) (url : string) (stats : gmap string pyval) (v : pyval) :
  in_range (-90) (latitude request) 90 ->
  in_range (-180) (longitude request) 180 ->
  get_ndvi_image_url E (latitude request) (longitude request)
    (buffer_distance request) (days_back request) (cloud_threshold request) t
  = (Ok (url, stats), t1) ->
  stats !! "NDVI_mean" = Some v ->
  py_number v = None ->
  get_ndvi_stats E request t
  = (Raise (HTTPException 500
       ("Internal server error: " +:+ str_exn E (not_comparable v))), t1).
Proof.
  intros Hlat%between_spec Hlon%between_spec Hrun Hv Hn.
  rewrite get_ndvi_stats_eq, Hlat, Hlon, Hrun. cbn [snd]. cbv zeta.
  rewrite Hv. cbn [default id].
  assert (classify v = Raise (not_comparable v)) as ->; [|reflexivity].
  unfold classify, py_lt_float. rewrite Hn. reflexivity.
Qed.

(** X12: a request whose [days_back] is null, or so large that the start
    of the window is not a date, fails with a 500 before any remote call
    is made, on both endpoints. *)
Theorem bad_days_back_fails_before_remote_calls (request : LocationRequest)
    (t : list remote_call) :
  in_range (-90) (latitude request) 90 ->
  in_range (-180) (longitude request) 180 ->
  days_back request = None
  \/ (exists days,
        days_back request = Some days
        /\ (999999999 < Z.abs days \/ today E - days < 1 \/ 3652059 < today E - days)) ->
  exists cause,
    get_ndvi_stats E request t = (Raise (ndvi_error E cause), t)
    /\ generate_ndvi_image E request t = (Raise (ndvi_error E cause), t).
Proof.
  intros Hlat%between_spec Hlon%between_spec Hdays.
  assert (exists cause,
    get_ndvi_image_url E (latitude request) (longitude request)
      (buffer_distance request) (days_back request) (cloud_threshold request) t
    = (Raise (ndvi_error E cause), t)) as [cause Hrun].
  { rewrite get_ndvi_image_url_eq. cbv zeta.
    destruct Hdays as [->|(days & -> & Hdays)]; [cbn; eauto|].
    unfold timedelta. destruct (Z.abs days <=? 999999999) eqn:Habs; [|eauto].
    apply Z.leb_le in Habs. unfold date_sub. cbv zeta.
    destruct ((1 <=? today E - days) && (today E - days <=? 3652059)) eqn:Hb; [|eauto].
    apply andb_true_iff in Hb as [H1 H2]. apply Z.leb_le in H1, H2. lia. }
  exists cause. rewrite get_ndvi_stats_eq, generate_ndvi_image_eq, Hlat, Hlon, Hrun.
  split; reflexivity.
Qed.

End EndpointRuns.

(** ** The classification on its whole domain *)

Ltac split_thresholds :=
  repeat match goal with
         | |- context [Qlt_bool ?a ?b] =>
             let H := fresh "Hcmp" in
             destruct (Qlt_bool a b) eqn:H;
             [apply Qlt_bool_iff in H|apply Qlt_bool_false in H];
             cbv beta iota
         end.

(** X13: the classification is monotone: of two real means, the larger
    one never gets a label lower on the scale Severe Stress, Stressed,
    Moderate, Healthy, Very Healthy. *)
Theorem classify_monotone (m1 m2 : pyval) (q1 q2 : Q) :
  py_number m1 = Some (Fin q1) ->
  py_number m2 = Some (Fin q2) ->
  (q1 <= q2)%Q ->
  exists l1 l2,
    classify m1 = Ok l1 /\ classify m2 = Ok l2
    /\ (label_rank l1 <= label_rank l2)%nat.
Proof.
  intros H1 H2 Hle.
  rewrite (classify_number _ _ H1), (classify_number _ _ H2).
  rewrite float_value_0_2, float_value_0_4, float_value_0_6, float_value_0_8.
  destruct thresholds_increasing as (H0 & H24 & H46 & H68 & H8).
  cbn [num_lt]. eexists _, _. split; [reflexivity|]. split; [reflexivity|].
  split_thresholds; first [exfalso; lra|vm_compute; lia].
Qed.

(** X14: the classification is defined exactly on numbers: on an int, a
    bool or a float it returns a label, and on anything else (null, a
    string, a list) it raises the TypeError of the first comparison. *)
Theorem classify_fails_exactly_on_non_numbers (v : pyval) :
  (numeric v <-> exists label, classify v = Ok label)
  /\ (~ numeric v <-> classify v = Raise (not_comparable v)).
Proof.
  unfold numeric. destruct (py_number v) as [n|] eqn:Hn.
  - rewrite (classify_number _ _ Hn). split; split; eauto.
    + intros Hno. destruct Hno. eauto.
    + discriminate.
  - assert (classify v = Raise (not_comparable v)) as Hc
      by (unfold classify, py_lt_float; rewrite Hn; reflexivity).
    rewrite Hc. split; split.
    + intros [n [=]].
    + intros [label [=]].
    + reflexivity.
    + intros _ [n [=]].
Qed.

(** X15: an integer mean (the default 0 included) only ever gets one of
    the two extreme labels: Severe Stress when it is at most 0 and Very
    Healthy when it is at least 1; a boolean counts as 0 or 1. *)
Theorem integer_mean_gets_extreme_label (z : Z) (b : bool) :
  classify (PyInt z)
  = Ok (if z <=? 0 then "Severe Stress / Bare Soil" else "Very Healthy")
  /\ classify (PyBool b)
     = Ok (if b then "Very Healthy" else "Severe Stress / Bare Soil").
Proof.
  destruct thresholds_increasing as (H0 & H24 & H46 & H68 & H8).
  assert (Hint : forall k : Z,
    classify (PyInt k)
    = Ok (if k <=? 0 then "Severe Stress / Bare Soil" else "Very Healthy")).
  { intros k. rewrite (classify_number (PyInt k) (int_value k) eq_refl).
    rewrite float_value_0_2, float_value_0_4, float_value_0_6, float_value_0_8.
    unfold int_value. cbn [num_lt].
    destruct (k <=? 0) eqn:Hk.
    - apply Z.leb_le in Hk. rewrite Zle_Qle in Hk.
      change (inject_Z 0) with 0%Q in Hk.
      split_thresholds; first [reflexivity|exfalso; lra].
    - apply Z.leb_gt in Hk. assert (1 <= k) as Hk1 by lia.
      rewrite Zle_Qle in Hk1.
      change (inject_Z 1) with 1%Q in Hk1.
      split_thresholds; first [reflexivity|exfalso; lra]. }
  split; [apply Hint|]. destruct b; vm_compute; reflexivity.
Qed.

(** X16: a mean that is not finite is still classified: a NaN and a
    positive infinity as Very Healthy (every comparison is false), a
    negative infinity as Severe Stress. *)
Theorem non_finite_mean_labels (f : float) :
  (float_value f = NaN \/ float_value f = PosInf ->
   classify (PyFloat f) = Ok "Very Healthy")
  /\ (float_value f = NegInf ->
      classify (PyFloat f) = Ok "Severe Stress / Bare Soil").
Proof.
  rewrite (classify_number (PyFloat f) (float_value f) eq_refl).
  rewrite float_value_0_2, float_value_0_4, float_value_0_6, float_value_0_8.
  split; [intros [->| ->]|intros ->]; reflexivity.
Qed.

(** ** What is not checked before the provider is queried *)

Section Unchecked.

Variable E : environment.

Lemma get_ndvi_image_url_first_call (lat lon : float) (b c : option Z) (days : Z)
    (t : list remote_call) :
  Z.abs days <= 999999999 ->
  1 <= today E - days <= 3652059 ->
  exists rest,
    (get_ndvi_image_url E lat lon b (Some days) c t).2
    = t ++ CollectionSize
             (s2_filtered E (area_of_interest lat lon b) (today E - days) (today E) c)
           :: rest.
Proof.
  intros Habs [Hlo Hhi]. rewrite get_ndvi_image_url_eq. cbv zeta.
  unfold timedelta. apply Z.leb_le in Habs. rewrite Habs.
  unfold date_sub. cbv zeta. apply Z.leb_le in Hlo, Hhi. rewrite Hlo, Hhi.
  cbn [andb].
  repeat match goal with
         | |- context [match ?x with Ok _ => _ | Raise _ => _ end] => destruct x
         | |- context [if ?x then _ else _] => destruct x
         end;
    cbn [snd]; rewrite <- ?app_assoc; eexists; reflexivity.
Qed.

(** X17: of the request's parameters only the coordinates are checked
    by the code: for valid coordinates and any number of days that gives
    a date, be it zero or negative (a window that ends before it starts),
    and for any buffer distance and cloud threshold, null, zero and
    negative included, both endpoints go on to the client library, and
    the first call they make is [size().getInfo()] on the collection
    filtered with exactly these values. *)
Theorem unvalidated_parameters_reach_provider (request : LocationRequest)
    (days : Z) (t : list remote_call) :
  in_range (-90) (latitude request) 90 ->
  in_range (-180) (longitude request) 180 ->
  days_back request = Some days ->
  Z.abs days <= 999999999 ->
  1 <= today E - days <= 3652059 ->
  let query :=
    CollectionSize
      (s2_filtered E
         (area_of_interest (latitude request) (longitude request)
            (buffer_distance request))
         (today E - days) (today E) (cloud_threshold request)) in
  (exists rest, (get_ndvi_stats E request t).2 = t ++ query :: rest)
  /\ (exists rest, (generate_ndvi_image E request t).2 = t ++ query :: rest).
Proof.
  intros Hlat%between_spec Hlon%between_spec Hdays Habs Hdate query.
  destruct (get_ndvi_image_url_first_call (latitude request) (longitude request)
              (buffer_distance request) (cloud_threshold request) days t Habs Hdate)
    as [rest Hfirst].
  rewrite <- Hdays in Hfirst. fold query in Hfirst. split.
  - rewrite get_ndvi_stats_eq, Hlat, Hlon.
    destruct (get_ndvi_image_url E _ _ _ _ _ t) as [[r|e] t1]; cbn [snd] in *.
    + exists rest. cbv zeta. destruct (classify _); exact Hfirst.
    + exists rest. exact Hfirst.
  - rewrite generate_ndvi_image_log, Hlat, Hlon.
    destruct (get_ndvi_image_url E _ _ _ _ _ t) as [[r|e] t1]; cbn [snd] in *.
    + exists (rest ++ [HttpGet r.1 30]). rewrite Hfirst, <- app_assoc. reflexivity.
    + exists rest. exact Hfirst.
Qed.

End Unchecked.

(** ** The further properties on the test double *)

Lemma valid_sample_coordinates :
  in_range (-90) 40 90 /\ in_range (-180) (-100) 180.
Proof. split; rewrite <- between_spec; vm_compute; reflexivity. Qed.

Lemma image_run :
  exists resp t1,
    generate_ndvi_image (fake_env 3 s2_bands full_stats) (default_request 40 (-100)) []
    = (Ok resp, t1).
Proof. eexists _, _. vm_compute. reflexivity. Qed.

Lemma empty_stats_run :
  exists e t1,
    get_ndvi_stats (fake_env 0 s2_bands full_stats) (default_request 40 (-100)) []
    = (Raise e, t1).
Proof. eexists _, _. vm_compute. reflexivity. Qed.

Lemma endpoint_error_statuses_witness :
  exists e t1,
    get_ndvi_stats (fake_env 0 s2_bands full_stats) (default_request 40 (-100)) []
    = (Raise e, t1)
    /\ exists detail, e = HTTPException 500 detail.
Proof.
  destruct empty_stats_run as (e & t1 & Hrun).
  exists e, t1. split; [exact Hrun|].
  destruct valid_sample_coordinates as [Hlat Hlon].
  destruct (endpoint_error_statuses _ _ _ _ _ (or_intror Hrun))
    as [(_ & Hno & _)|[(_ & _ & Hno & _)|(detail & -> & _)]].
  - destruct (Hno Hlat).
  - destruct (Hno Hlon).
  - exists detail. reflexivity.
Defined.

Lemma image_response_contents_witness :
  exists resp t1,
    generate_ndvi_image (fake_env 3 s2_bands full_stats) (default_request 40 (-100)) []
    = (Ok resp, t1)
    /\ media_type resp = "image/jpeg"
    /\ position (body resp) = 0
    /\ length t1 = 5%nat.
Proof.
  destruct image_run as (resp & t1 & Hrun).
  exists resp, t1. split; [exact Hrun|].
  destruct (image_response_contents _ _ _ _ _ Hrun)
    as (start & url & stats & _ & _ & _ & -> & Hmedia & Hpos & _).
  split; [exact Hmedia|]. split; [exact Hpos|reflexivity].
Defined.

Lemma stats_label_matches_reported_mean_witness :
  exists resp t1 mean label,
    get_ndvi_stats (fake_env 3 s2_bands full_stats) (default_request 40 (-100)) []
    = (Ok resp, t1)
    /\ ndvi_stats resp !! "mean_ndvi" = Some mean
    /\ ndvi_stats resp !! "health_status" = Some (PyStr label)
    /\ classify mean = Ok label.
Proof.
  destruct stats_run as (resp & t1 & Hrun & _).
  destruct (stats_label_matches_reported_mean _ _ _ _ _ Hrun)
    as (mean & label & Hmean & Hlabel & Hc & _).
  exists resp, t1, mean, label. auto.
Defined.

Lemma stats_response_shape_witness :
  exists resp t1,
    get_ndvi_stats (fake_env 3 s2_bands full_stats) (default_request 40 (-100)) []
    = (Ok resp, t1)
    /\ base.size (ndvi_stats resp) = 6%nat.
Proof.
  destruct stats_run as (resp & t1 & Hrun & _).
  exists resp, t1. split; [exact Hrun|].
  destruct (stats_response_shape _ _ _ _ _ Hrun) as (_ & _ & Hdom).
  rewrite <- size_dom, Hdom. reflexivity.
Defined.

Lemma non_numeric_mean_is_internal_error_witness :
  exists t1,
    get_ndvi_stats (fake_env 3 s2_bands {[ "NDVI_mean" := PyNone ]})
      (default_request 40 (-100)) []
    = (Raise (HTTPException 500
         "Internal server error: '<' not supported between instances of 'NoneType' and 'float'"),
       t1).
Proof.
  destruct valid_sample_coordinates as [Hlat Hlon].
  eexists.
  eapply (non_numeric_mean_is_internal_error
            (fake_env 3 s2_bands {[ "NDVI_mean" := PyNone ]})
            (default_request 40 (-100)) [] _ _ _ PyNone Hlat Hlon).
  - vm_compute. reflexivity.
  - vm_compute. reflexivity.
  - reflexivity.
Defined.

Lemma bad_days_back_fails_before_remote_calls_witness :
  exists cause,
    get_ndvi_stats (fake_env 3 s2_bands full_stats)
      (request_with 40 (-100) (Some 50) None (Some 20)) []
    = (Raise (ndvi_error (fake_env 3 s2_bands full_stats) cause), []).
Proof.
  destruct valid_sample_coordinates as [Hlat Hlon].
  destruct (bad_days_back_fails_before_remote_calls
              (fake_env 3 s2_bands full_stats)
              (request_with 40 (-100) (Some 50) None (Some 20)) []
              Hlat Hlon (or_introl eq_refl)) as (cause & Hstats & _).
  exists cause. exact Hstats.
Defined.

Lemma classify_monotone_witness :
  exists l1 l2,
    classify (PyFloat 0.25%float) = Ok l1 /\ classify (PyFloat 0.5%float) = Ok l2
    /\ (label_rank l1 <= label_rank l2)%nat.
Proof.
  apply (classify_monotone (PyFloat 0.25%float) (PyFloat 0.5%float)
           (threshold 0.25%float) (threshold 0.5%float)).
  - vm_compute. reflexivity.
  - vm_compute. reflexivity.
  - vm_compute. discriminate.
Defined.

Lemma non_finite_mean_labels_witness :
  float_value nan = NaN /\ classify (PyFloat nan) = Ok "Very Healthy"
  /\ float_value neg_infinity = NegInf
  /\ classify (PyFloat neg_infinity) = Ok "Severe Stress / Bare Soil".
Proof.
  assert (Hnan : float_value nan = NaN) by (vm_compute; reflexivity).
  assert (Hinf : float_value neg_infinity = NegInf) by (vm_compute; reflexivity).
  split; [exact Hnan|]. split.
  - apply (proj1 (non_finite_mean_labels nan)). left. exact Hnan.
  - split; [exact Hinf|]. apply (proj2 (non_finite_mean_labels neg_infinity)).
    exact Hinf.
Defined.

Lemma unvalidated_parameters_reach_provider_witness :
  exists rest,
    (get_ndvi_stats (fake_env 3 s2_bands full_stats)
       (request_with 40 (-100) (Some (-5)) (Some (-30)) None) []).2
    = CollectionSize
        (s2_filtered (fake_env 3 s2_bands full_stats)
           (area_of_interest 40 (-100) (Some (-5))) 739222 739192 None)
      :: rest.
Proof.
  destruct valid_sample_coordinates as [Hlat Hlon].
  destruct (unvalidated_parameters_reach_provider
              (fake_env 3 s2_bands full_stats)
              (request_with 40 (-100) (Some (-5)) (Some (-30)) None) (-30) []
              Hlat Hlon eq_refl ltac:(cbn; lia) ltac:(cbn; lia)) as [Hstats _].
  exact Hstats.
Defined.

(** * The reduction, the thumbnail and the resampling as they are performed *)

Section Performed.

Variable E : environment.

Lemma get_ndvi_image_url_reaching (lat lon : float) (b d c : option Z) (start : Z)
    (t : list remote_call) :
  reaches_reduction E lat lon b d c start ->
  get_ndvi_image_url E lat lon b d c t =
    let aoi := area_of_interest lat lon b in
    let coll := s2_filtered E aoi start (today E) c in
    let ndvi := ndvi_raster (composite coll aoi) in
    let t3 := t ++ [CollectionSize coll; BandNames (composite coll aoi);
                    ReduceRegion ndvi stats_reducer aoi 10 1e9%float] in
    match reduceRegion_getInfo E ndvi stats_reducer aoi 10 1e9%float with
    | Raise e => (Raise (ndvi_error E e), t3)
    | Ok stats =>
        match getThumbURL E ndvi vis_params with
        | Raise e => (Raise (ndvi_error E e), t3 ++ [GetThumbURL ndvi vis_params])
        | Ok url => (Ok (url, stats), t3 ++ [GetThumbURL ndvi vis_params])
        end
    end.
Proof.
  intros (delta & n & band_names & Hd & Hs & Hn & Hn0 & Hb & H8 & H4).
  rewrite get_ndvi_image_url_eq. cbv zeta.
  rewrite Hd, Hs, Hn. apply Z.eqb_neq in Hn0. rewrite Hn0, Hb.
  assert (lacks_band band_names = false) as -> by (apply lacks_band_false; auto).
  rewrite <- !app_assoc. reflexivity.
Qed.

(** C6: whenever the window is valid, the collection is not empty and the
    composite has B8 and B4, the extractor performs the zonal reduction,
    exactly once: on the NDVI raster over the area of interest, at scale
    10 with maxPixels 1e9, with one combined reducer that outputs mean,
    min, max and stdDev from shared inputs.  The statistics it returns are
    the answer to that one request, and when the request fails so does the
    extractor. *)
Theorem zonal_reduction_performed (lat lon : float) (b d c : option Z) (start : Z) :
  reaches_reduction E lat lon b d c start ->
  let aoi := area_of_interest lat lon b in
  let ndvi := ndvi_raster (composite (s2_filtered E aoi start (today E) c) aoi) in
  let run := get_ndvi_image_url E lat lon b d c [] in
  List.filter is_reduce run.2 = [ReduceRegion ndvi stats_reducer aoi 10 1e9%float]
  /\ reducer_outputs stats_reducer = ["mean"; "min"; "max"; "stdDev"]
  /\ shares_inputs stats_reducer = true
  /\ (forall url stats,
        run.1 = Ok (url, stats) ->
        reduceRegion_getInfo E ndvi stats_reducer aoi 10 1e9%float = Ok stats)
  /\ (forall e,
        reduceRegion_getInfo E ndvi stats_reducer aoi 10 1e9%float = Raise e ->
        run.1 = Raise (ndvi_error E e)).
Proof.
  intros Hreach. cbv zeta.
  rewrite (get_ndvi_image_url_reaching lat lon b d c start [] Hreach). cbv zeta.
  split; [|split; [reflexivity|split; [reflexivity|split]]].
  - destruct (reduceRegion_getInfo E _ _ _ _ _) as [stats|e]; [|reflexivity].
    destruct (getThumbURL E _ _); reflexivity.
  - intros url stats.
    destruct (reduceRegion_getInfo E _ _ _ _ _) as [stats'|e]; [|discriminate].
    destruct (getThumbURL E _ _); [|discriminate].
    intros [= _ <-]. reflexivity.
  - intros e ->. reflexivity.
Qed.


(** C3: once the image has been retrieved and decoded, the normalizer
    returns whenever the Pillow steps it takes succeed: the decoded
    image is converted to RGB unless it is RGB already, resampled with
    LANCZOS to the target size unless it has that size already, never
    cropped, and encoded; the stream returned is that encoding, of an RGB
    image of exactly the target width and height, positioned at its
    start.  When the conversion, the resampling or the encoding of these
    very images raises, the normalizer fails with the 500 that carries
    the cause. *)
Theorem download_and_convert_image_resamples (url : string) (w h : Z)
    (t : list remote_call) (response : http_response) (img : image) :
  pil_contract E ->
  requests_get E url 30 = Ok response ->
  raise_for_status response = Ok tt ->
  Image_open E (content response) = Ok img ->
  let run := download_and_convert_image E url (Some w) (Some h) t in
  (forall rgb final data,
      converted E img rgb -> resampled E w h rgb final ->
      Image_save E final "JPEG" 95 = Ok data ->
      run = (Ok {| buffer := data; position := 0 |}, t ++ [HttpGet url 30])
      /\ mode final = "RGB" /\ size final = (w, h))
  /\ (forall cause,
        mode img <> "RGB" -> Image_convert E img "RGB" = Raise cause ->
        run.1 = Raise (image_error E cause))
  /\ (forall rgb cause,
        converted E img rgb -> size rgb <> (w, h) ->
        Image_resize E rgb (Some w, Some h) LANCZOS = Raise cause ->
        run.1 = Raise (image_error E cause))
  /\ (forall rgb final cause,
        converted E img rgb -> resampled E w h rgb final ->
        Image_save E final "JPEG" 95 = Raise cause ->
        run.1 = Raise (image_error E cause)).
Proof.
  intros [Hconvert Hresize] Hget Hstatus Hopen. cbv zeta.
  rewrite download_and_convert_image_eq. cbv zeta. rewrite Hget, Hstatus, Hopen.
  assert (Hconv : forall rgb, converted E img rgb ->
            (if String.eqb (mode img) "RGB" then Ok img
             else Image_convert E img "RGB") = Ok rgb
            /\ mode rgb = "RGB").
  { intros rgb [[Hm ->]|[Hm Hc]].
    - apply String.eqb_eq in Hm as Hb. rewrite Hb. auto.
    - apply String.eqb_neq in Hm as Hb. rewrite Hb.
      split; [exact Hc|]. now apply Hconvert in Hc. }
  assert (Hres : forall rgb final, resampled E w h rgb final ->
            (if size_eq (size rgb) (Some w, Some h) then Ok rgb
             else Image_resize E rgb (Some w, Some h) LANCZOS) = Ok final
            /\ size final = (w, h) /\ mode final = mode rgb).
  { intros rgb final [[Hs ->]|[Hs Hr]].
    - apply size_eq_spec in Hs as Hb. rewrite Hb. auto.
    - assert (size_eq (size rgb) (Some w, Some h) = false) as ->.
      { destruct (size_eq _ _) eqn:Hb; [|reflexivity].
        apply size_eq_spec in Hb. contradiction. }
      split; [exact Hr|]. now apply Hresize in Hr. }
  split; [|split; [|split]].
  - intros rgb final data [Hc Hm]%Hconv (Hr & Hs & Hm')%Hres Hsave.
    rewrite Hc, Hr, Hsave. split; [reflexivity|]. split; congruence.
  - intros cause Hm%String.eqb_neq Hc. rewrite Hm, Hc. reflexivity.
  - intros rgb cause [Hc _]%Hconv Hs Hr. rewrite Hc.
    assert (size_eq (size rgb) (Some w, Some h) = false) as ->.
    { destruct (size_eq _ _) eqn:Hb; [|reflexivity].
      apply size_eq_spec in Hb. contradiction. }
    rewrite Hr. reflexivity.
  - intros rgb final cause [Hc _]%Hconv (Hr & _)%Hres Hsave.
    rewrite Hc, Hr, Hsave. reflexivity.
Qed.

End Performed.

(** ** On the test double *)

Lemma fake_env_reaches_reduction (stats : gmap string pyval) :
  reaches_reduction (fake_env 3 s2_bands stats) 40 (-100)
    (Some 50) (Some 90) (Some 20) 739102.
Proof.
  exists 90, 3, s2_bands. repeat split; try reflexivity.
  - discriminate.
  - rewrite list_elem_of_In. cbn. tauto.
  - rewrite list_elem_of_In. cbn. tauto.
Qed.

Lemma zonal_reduction_performed_witness :
  List.filter is_reduce
    (get_ndvi_image_url (fake_env 3 s2_bands full_stats) 40 (-100)
       (Some 50) (Some 90) (Some 20) []).2
  = [ReduceRegion
       (ndvi_raster
          (composite
             (s2_filtered (fake_env 3 s2_bands full_stats)
                (area_of_interest 40 (-100) (Some 50)) 739102 739192 (Some 20))
             (area_of_interest 40 (-100) (Some 50))))
       stats_reducer (area_of_interest 40 (-100) (Some 50)) 10 1e9%float].
Proof.
  destruct (zonal_reduction_performed (fake_env 3 s2_bands full_stats) 40 (-100)
              (Some 50) (Some 90) (Some 20) 739102
              (fake_env_reaches_reduction full_stats)) as [Hcalls _].
  exact Hcalls.
Defined.


Lemma with_encoder_pil_contract (E : environment) :
  pil_contract E -> pil_contract (with_encoder E).
Proof. intros Hpil. exact Hpil. Qed.

Lemma download_and_convert_image_resamples_witness :
  download_and_convert_image (with_encoder (fake_env 3 s2_bands full_stats))
    "https://earthengine.googleapis.com/thumb" (Some 400) (Some 300) []
  = (Ok {| buffer := String.list_byte_of_string "JPEG RGB 400x300"; position := 0 |},
     [HttpGet "https://earthengine.googleapis.com/thumb" 30]).
Proof.
  destruct (download_and_convert_image_resamples
              (with_encoder (fake_env 3 s2_bands full_stats))
              "https://earthengine.googleapis.com/thumb" 400 300 []
              {| http_status := 200; http_reason := "OK";
                 http_url := "https://earthengine.googleapis.com/thumb";
                 content := [] |}
              {| mode := "P"; size := (800, 600); raster := [] |}
              (with_encoder_pil_contract _
                 (fake_env_pil_contract 3 s2_bands full_stats))
              eq_refl eq_refl eq_refl) as [Hreturns _].
  destruct (Hreturns {| mode := "RGB"; size := (800, 600); raster := [] |}
              {| mode := "RGB"; size := (400, 300); raster := [] |}
              (String.list_byte_of_string "JPEG RGB 400x300")) as [Hrun _].
  - right. split; [discriminate|reflexivity].
  - right. split; [discriminate|reflexivity].
  - reflexivity.
  - exact Hrun.
Defined.

(** C3 as stated fails: the thumbnail is retrieved and decoded, but for a
    target width of 0 Pillow refuses to resize and the normalizer answers
    500 instead of returning an image. *)
Lemma download_and_convert_image_zero_width :
  pil_contract (fake_env 3 s2_bands full_stats)
  /\ (exists response img,
        requests_get (fake_env 3 s2_bands full_stats)
          "https://earthengine.googleapis.com/thumb" 30 = Ok response
        /\ raise_for_status response = Ok tt
        /\ Image_open (fake_env 3 s2_bands full_stats) (content response) = Ok img)
  /\ download_and_convert_image (fake_env 3 s2_bands full_stats)
       "https://earthengine.googleapis.com/thumb" (Some 0) (Some 600) []
     = (Raise (HTTPException 500
          "Error processing image: height and width must be > 0"),
        [HttpGet "https://earthengine.googleapis.com/thumb" 30]).
Proof.
  split; [apply fake_env_pil_contract|]. split.
  - eexists _, _. repeat split; reflexivity.
  - vm_compute. reflexivity.
Qed.


(** C9 as stated fails when a statistic is there but null: the response
    is successful and its [min_ndvi] is the null, not a number. *)
Lemma null_minimum_is_echoed :
  exists resp t1,
    get_ndvi_stats (fake_env 3 s2_bands stats_with_null_min)
      (default_request 40 (-100)) []
    = (Ok resp, t1)
    /\ ndvi_stats resp !! "min_ndvi" = Some PyNone
    /\ ~ numeric PyNone.
Proof.
  eexists _, _. split; [vm_compute; reflexivity|].
  split; [vm_compute; reflexivity|]. intros [n Hn]. discriminate Hn.
Qed.
